(** * wp-check: a model of [wp-check.py] and the properties of its report

    The script walks a directory tree, recognises WordPress installations,
    reads the installed core and plugin versions from the PHP sources and
    compares them with what wordpress.org publishes.

    The embedding follows the script function by function.  What the script
    delegates to third-party packages ([re], [bs4], [dateutil], [packaging],
    [chardet], [requests]) is an interface here ([Libraries], [World]); the
    script's own control flow (caches, loops, guards, prints) is written out. *)

From Stdlib Require Import ZArith String Ascii List.
From stdpp Require Import base option list strings gmap relations.

Open Scope Z_scope.
Open Scope string_scope.
Open Scope list_scope.

(** ** Exceptions and results *)

(** The exceptions the script can let escape. *)
Inductive exn : Type :=
| AttributeError      (* [None.find_all(...)] *)
| IndexError          (* [tds[i]] out of range *)
| ParserError         (* [dateutil.parser.parse] *)
| UnicodeDecodeError  (* [bytes.decode] *)
| TypeError           (* [bytes.decode(None)] *)
| FileNotFoundError
| IsADirectoryError
| NotADirectoryError.

Inductive result (A : Type) : Type :=
| Ok (a : A)
| Raise (e : exn).
Arguments Ok {A} a.
Arguments Raise {A} e.

(** ** The filesystem *)

(** A directory lists its entries in the order [os.listdir] returns them. *)
#[warnings="-register-all"] Inductive fsnode : Type :=
| File (rawdata : string)
| Dir (entries : list (string * fsnode)).

(** A path is the list of its components; [os.path.join] appends some. *)
Definition path : Type := list string.

Definition os_path_join (p : path) (names : list string) : path := p ++ names.

(** The string Python prints for a path. *)
Definition path_str (p : path) : string := String.concat "/" p.

Fixpoint assoc (name : string) (entries : list (string * fsnode)) : option fsnode :=
  match entries with
  | [] => None
  | (n, c) :: rest => if String.eqb n name then Some c else assoc name rest
  end.

Fixpoint lookup_path (n : fsnode) (p : path) : option fsnode :=
  match p with
  | [] => Some n
  | name :: p' =>
      match n with
      | Dir entries =>
          match assoc name entries with
          | Some c => lookup_path c p'
          | None => None
          end
      | File _ => None
      end
  end.

(** [os.walk] top-down: a directory, then its subdirectories in listing
    order, each with its own subtree.  Only the directory paths are kept,
    the script ignores the other two components. *)
Fixpoint walk_node (top : path) (n : fsnode) : list path :=
  match n with
  | File _ => []
  | Dir entries =>
      top :: (fix walk_entries (l : list (string * fsnode)) : list path :=
                match l with
                | [] => []
                | (name, c) :: l' => walk_node (top ++ [name]) c ++ walk_entries l'
                end) entries
  end.

(** ** Parsed HTML *)

(** The part of a [bs4] tree the script looks at: tag names, classes,
    children and strings. *)
#[warnings="-register-all"] Inductive node : Type :=
| NavigableString (s : string)
| Tag (name : string) (class_ : list string) (contents : list node).

(** All descendants in document order. *)
Fixpoint descendants (n : node) : list node :=
  match n with
  | NavigableString _ => []
  | Tag _ _ contents =>
      (fix over (l : list node) : list node :=
         match l with
         | [] => []
         | c :: l' => c :: descendants c ++ over l'
         end) contents
  end.

Definition is_tag (name : string) (n : node) : bool :=
  match n with
  | Tag name' _ _ => String.eqb name' name
  | NavigableString _ => false
  end.

Definition has_class (cls : string) (n : node) : bool :=
  match n with
  | Tag _ classes _ => existsb (String.eqb cls) classes
  | NavigableString _ => false
  end.

(** [tag.find_all(name)] *)
Definition find_all (name : string) (n : node) : list node :=
  List.filter (is_tag name) (descendants n).

(** [tag.find(name)] *)
Definition find (name : string) (n : node) : option node :=
  head (find_all name n).

(** [tag.find(class_=cls)] *)
Definition find_class (cls : string) (n : node) : option node :=
  head (List.filter (has_class cls) (descendants n)).

(** [tag.text] *)
Fixpoint text (n : node) : string :=
  match n with
  | NavigableString s => s
  | Tag _ _ contents =>
      (fix over (l : list node) : string :=
         match l with
         | [] => ""
         | c :: l' => text c +:+ over l'
         end) contents
  end.

(** ** Dates *)

(** A naive [datetime], in microseconds from a fixed origin. *)
Definition datetime : Type := Z.

Definition microseconds_per_day : Z := 86400 * 1000000.

(** [(a - b).days]: a [timedelta] is normalised with its days rounded down. *)
Definition timedelta_days (a b : datetime) : Z := (a - b) / microseconds_per_day.

(** ** HTTP *)

(** What the script reads of a [requests.Response]. *)
Record Response : Type := { ok : bool; rtext : string }.

(** ** Third-party packages and the outside world *)

Class Libraries : Type := {
  (** [packaging.version]: [Version] or [LegacyVersion], never an error. *)
  PackageVersion : Type;
  version_parse : string -> PackageVersion;
  version_lt : PackageVersion -> PackageVersion -> bool;
  version_str : PackageVersion -> string;
  (** [re.findall(pattern, text)], resp. with [re.MULTILINE]; the patterns
      have one group, so the result is the list of its captures. *)
  re_findall : string -> string -> list string;
  re_findall_MULTILINE : string -> string -> list string;
  (** [BeautifulSoup(text, "html.parser")] *)
  BeautifulSoup : string -> node;
  (** [dateutil.parser.parse]; [None] when it raises. *)
  dateparser_parse : string -> option datetime;
  (** [rawdata.decode("utf-8")]; [None] when it raises. *)
  decode_utf8 : string -> option string;
  (** [chardet.detect(rawdata)["encoding"]] *)
  chardet_detect : string -> option string;
  (** [rawdata.decode(encoding)]; [None] when it raises. *)
  decode : string -> string -> option string
}.

(** The filesystem is a tree of directories and regular files, which the
    script only reads; every request is answered; the clock is read as one
    instant. *)
Class World : Type := {
  (** The root of the filesystem. *)
  disk : fsnode;
  (** [requests.get(url)], given the URLs requested before. *)
  requests_get : list string -> string -> Response;
  (** [datetime.now()] *)
  datetime_now : datetime
}.

(** ** The state of a run *)

Section Script.
Context {L : Libraries} {W : World}.

(** The two caches of a [WordPressOnline] object, the requests sent so far
    and the lines printed so far. *)
Record state : Type := {
  wp_cache : gmap string datetime;                   (* version -> release date *)
  plugin_cache : gmap string (PackageVersion * bool); (* slug -> [version, closed] *)
  http_log : list string;
  stdout : list string
}.

(** [WordPressOnline()] at the start of [check_wordpress]. *)
Definition initial_state : state :=
  {| wp_cache := ∅; plugin_cache := ∅; http_log := []; stdout := [] |}.

(** A computation reads and updates the state and returns or raises. *)
Definition M (A : Type) : Type := state -> result A * state.

Definition ret {A} (a : A) : M A := fun s => (Ok a, s).

Definition bind {A B} (c : M A) (k : A -> M B) : M B :=
  fun s =>
    match c s with
    | (Ok a, s') => k a s'
    | (Raise e, s') => (Raise e, s')
    end.

Definition raise {A} (e : exn) : M A := fun s => (Raise e, s).

Notation "'let*' x := c 'in' k" := (bind c (fun x => k))
  (at level 10, x pattern, c at level 100, k at level 200).
Notation "c ;;; k" := (bind c (fun _ => k))
  (at level 100, k at level 200, right associativity).

Definition get_state : M state := fun s => (Ok s, s).

(** [x[...]], [x.attr] or a library call that raises [e] when there is
    nothing to return. *)
Definition or_raise {A} (e : exn) (o : option A) : M A :=
  match o with
  | Some a => ret a
  | None => raise e
  end.

(** The state after some more lines are printed. *)
Definition emit (new_lines : list string) (s : state) : state :=
  {| wp_cache := wp_cache s; plugin_cache := plugin_cache s;
     http_log := http_log s; stdout := stdout s ++ new_lines |}.

(** The state after one more request is sent. *)
Definition requested (url : string) (s : state) : state :=
  {| wp_cache := wp_cache s; plugin_cache := plugin_cache s;
     http_log := http_log s ++ [url]; stdout := stdout s |}.

Definition print (line : string) : M unit :=
  fun s => (Ok tt, emit [line] s).

(** [requests.get(url)] *)
Definition http_get (url : string) : M Response :=
  fun s => (Ok (requests_get (http_log s) url), requested url s).

(** The state after [self.wp_cache[version] = date]. *)
Definition wp_cached (version : string) (date : datetime) (s : state) : state :=
  {| wp_cache := <[version := date]> (wp_cache s); plugin_cache := plugin_cache s;
     http_log := http_log s; stdout := stdout s |}.

(** The state after [self.plugin_cache[plugin_slug] = [plugin_version, closed]]. *)
Definition plugin_cached (plugin_slug : string) (entry : PackageVersion * bool) (s : state)
  : state :=
  {| wp_cache := wp_cache s; plugin_cache := <[plugin_slug := entry]> (plugin_cache s);
     http_log := http_log s; stdout := stdout s |}.

Definition wp_cache_store (version : string) (date : datetime) : M unit :=
  fun s => (Ok tt, wp_cached version date s).

Definition plugin_cache_store (plugin_slug : string) (entry : PackageVersion * bool) : M unit :=
  fun s => (Ok tt, plugin_cached plugin_slug entry s).

(** A [for] loop whose body may raise. *)
Fixpoint for_each {A} (l : list A) (body : A -> M unit) : M unit :=
  match l with
  | [] => ret tt
  | x :: l' => body x ;;; for_each l' body
  end.

(** ** [WordPressOnline] *)

Definition releases_url : string := "https://wordpress.org/download/releases/".

(** The body of the loop over the tables of the releases page. *)
Definition cache_table (table : node) : M unit :=
  let tr := find "tr" table in
  let* tr := or_raise AttributeError tr in
  let tds := find_all "td" tr in
  let* td0 := or_raise IndexError (tds !! 0%nat) in
  let version := text td0 in
  let* td1 := or_raise IndexError (tds !! 1%nat) in
  let* date := or_raise ParserError (dateparser_parse (text td1)) in
  wp_cache_store version date.

Definition get_wp_branch_last_version_release_date (wp_version : string)
  : M (option datetime) :=
  let* s := get_state in
  (if bool_decide (wp_cache s = ∅) then
     let* req := http_get releases_url in
     let soup := BeautifulSoup (rtext req) in
     for_each (find_all "table" soup) cache_table
   else ret tt) ;;;
  let* s := get_state in
  ret (wp_cache s !! wp_version).

Definition plugin_url (plugin_slug : string) : string :=
  "https://wordpress.org/plugins/" +:+ plugin_slug.

Definition closed_marker : string := "This plugin has been closed".

(** [haystack.find(needle) != -1] *)
Fixpoint contains (needle haystack : string) : bool :=
  String.prefix needle haystack ||
  match haystack with
  | EmptyString => false
  | String _ rest => contains needle rest
  end.

Definition get_plugin_last_version (plugin_slug : string)
  : M (option PackageVersion * option bool) :=
  let* s := get_state in
  match plugin_cache s !! plugin_slug with
  | Some (v, c) => ret (Some v, Some c)
  | None =>
      let* req := http_get (plugin_url plugin_slug) in
      if ok req then
        let soup := BeautifulSoup (rtext req) in
        let closed := contains closed_marker (rtext req) in
        let entry_meta := find_class "entry-meta" soup in
        match entry_meta with
        | Some entry_meta =>
            let versions := re_findall "Version:\s*([0-9\.]+)" (text entry_meta) in
            match versions with
            | v0 :: _ =>
                let plugin_version := version_parse v0 in
                plugin_cache_store plugin_slug (plugin_version, closed) ;;;
                ret (Some plugin_version, Some closed)
            | [] => ret (None, None)
            end
        | None => ret (None, None)
        end
      else ret (None, None)
  end.

(** ** Filesystem queries *)

Definition os_path_exists (p : path) : bool :=
  match lookup_path disk p with
  | Some _ => true
  | None => false
  end.

Definition os_path_isfile (p : path) : bool :=
  match lookup_path disk p with
  | Some (File _) => true
  | _ => false
  end.

Definition os_path_isdir (p : path) : bool :=
  match lookup_path disk p with
  | Some (Dir _) => true
  | _ => false
  end.

Definition os_listdir (p : path) : M (list string) :=
  match lookup_path disk p with
  | Some (Dir entries) => ret (map fst entries)
  | Some (File _) => raise NotADirectoryError
  | None => raise FileNotFoundError
  end.

(** [os.walk(rootdir)]; a root that is no directory yields nothing. *)
Definition os_walk (rootdir : path) : list path :=
  match lookup_path disk rootdir with
  | Some n => walk_node rootdir n
  | None => []
  end.

(** [s.endswith(suffix)] *)
Definition endswith (s suffix : string) : bool :=
  let n := String.length s in
  let m := String.length suffix in
  (m <=? n)%nat && String.eqb (substring (n - m) m s) suffix.

(** [str * n] *)
Fixpoint str_mul (s : string) (n : nat) : string :=
  match n with
  | O => ""
  | S n' => s +:+ str_mul s n'
  end.

(** The truth value of an [Optional[str]]: [None] and [""] are false. *)
Definition truthy (o : option string) : bool :=
  match o with
  | Some s => negb (String.eqb s "")
  | None => false
  end.

(** ** [read_file] *)

Definition read_file (file_name : path) : M string :=
  match lookup_path disk file_name with
  | Some (File rawdata) =>
      match decode_utf8 rawdata with
      | Some t => ret t
      | None =>
          match chardet_detect rawdata with
          | Some encoding => or_raise UnicodeDecodeError (decode encoding rawdata)
          | None => raise TypeError
          end
      end
  | Some (Dir _) => raise IsADirectoryError
  | None => raise FileNotFoundError
  end.

(** ** [is_wordpress] *)

Definition is_wordpress (directory : path) : bool :=
  os_path_exists (os_path_join directory ["wp-content"]) &&
  os_path_exists (os_path_join directory ["wp-includes"]).

(** ** [check_plugin] *)

(** A [for] loop that updates local variables. *)
Fixpoint for_fold {A B} (l : list A) (body : B -> A -> M B) (vars : B) : M B :=
  match l with
  | [] => ret vars
  | x :: l' => let* vars' := body vars x in for_fold l' body vars'
  end.

(** The body of the loop over the files of a plugin; [vars] is
    [(plugin_name, plugin_version_str)] and each [continue] returns the
    variables as they are. *)
Definition scan_php_file (plugin_dir : path) (vars : option string * option string)
    (php_file : string) : M (option string * option string) :=
  let php_file := os_path_join plugin_dir [php_file] in
  if negb (os_path_isfile php_file) || negb (endswith (path_str php_file) ".php") then
    ret vars
  else
    let* php_code := read_file php_file in
    match re_findall_MULTILINE "Plugin Name:\s*(.+?)$" php_code with
    | [] => ret vars
    | name0 :: _ =>
        let vars := (Some name0, snd vars) in
        match re_findall_MULTILINE "Version:\s*(.+?)$" php_code with
        | [] => ret vars
        | version0 :: _ => ret (fst vars, Some version0)
        end
    end.

(** The first loop of [check_plugin], up to the test of its outcome. *)
Definition plugin_header (plugin_dir : path) : M (option string * option string) :=
  let* php_files := os_listdir plugin_dir in
  for_fold php_files (scan_php_file plugin_dir) (None, None).

Definition closed_line (plugin_slug : string) : string :=
  "   " +:+ plugin_slug +:+ ": CLOSED".

Definition update_line (plugin_slug : string) (plugin_version last_version : PackageVersion)
  : string :=
  "   " +:+ plugin_slug +:+ ": updated required from " +:+ version_str plugin_version
        +:+ " to " +:+ version_str last_version.

Definition check_plugin (plugins_dir : path) (plugin_slug : string) : M unit :=
  let plugin_dir := os_path_join plugins_dir [plugin_slug] in
  let* vars := plugin_header plugin_dir in
  match vars with
  | (Some plugin_name, Some plugin_version_str) =>
      if negb (truthy (Some plugin_name)) || negb (truthy (Some plugin_version_str)) then
        ret tt
      else
        let* looked_up := get_plugin_last_version plugin_slug in
        let last_version := fst looked_up in
        let closed := snd looked_up in
        let plugin_version := version_parse plugin_version_str in
        match closed with
        | Some true => print (closed_line plugin_slug)
        | _ =>
            match last_version with
            | Some last_version =>
                if version_lt plugin_version last_version then
                  print (update_line plugin_slug plugin_version last_version)
                else ret tt
            | None => ret tt
            end
        end
  | _ => ret tt
  end.

(** ** [check_wordpress_plugins] *)

Definition check_wordpress_plugins (wp_dir : path) : M unit :=
  let plugins_dir := os_path_join wp_dir ["wp-content"; "plugins"] in
  if negb (os_path_exists plugins_dir) then ret tt
  else
    print ("Plugins: " +:+ path_str plugins_dir) ;;;
    let* slugs := os_listdir plugins_dir in
    for_each slugs (fun plugin_slug =>
      let plugin_dir := os_path_join plugins_dir [plugin_slug] in
      if negb (os_path_isdir plugin_dir) then ret tt
      else check_plugin plugins_dir plugin_slug).

(** ** [get_wp_version] *)

Definition get_wp_version (wp_dir : path) : M (option string) :=
  let version_php := os_path_join wp_dir ["wp-includes"; "version.php"] in
  if negb (os_path_exists version_php) then ret None
  else
    let* php_code := read_file version_php in
    match re_findall_MULTILINE "\$wp_version\s*=\s*'([^']+)'" php_code with
    | [] => ret None
    | version0 :: _ => ret (Some version0)
    end.

(** ** [check_wordpress] *)

Definition separator_line : string := str_mul "-" 40.
Definition wordpress_line (wp_dir : path) : string := "WordPress: " +:+ path_str wp_dir.
Definition skipping_line : string := "   wp-includes/version.php not found, skipping.".
Definition version_line (wp_version : string) : string := "   Version: " +:+ wp_version.
Definition out_of_date_line : string := "   This WordPress version is OUT-OF-DATE".
Definition outdated_line : string := "   This WordPress version is probabily outdated".

(** The three-way test on the release date, lines 175 to 178. *)
Definition report_release_date (release_date : option datetime) : M unit :=
  match release_date with
  | None => print out_of_date_line
  | Some release_date =>
      if (180 <? timedelta_days datetime_now release_date)%Z then print outdated_line
      else ret tt
  end.

(** The body of the loop over [os.walk]. *)
Definition check_directory (wp_dir : path) : M unit :=
  if is_wordpress wp_dir then
    print separator_line ;;;
    print (wordpress_line wp_dir) ;;;
    let* wp_version := get_wp_version wp_dir in
    match wp_version with
    | Some version0 =>
        if negb (truthy wp_version) then print skipping_line
        else
          print (version_line version0) ;;;
          let* release_date := get_wp_branch_last_version_release_date version0 in
          report_release_date release_date ;;;
          check_wordpress_plugins wp_dir
    | None => print skipping_line
    end
  else ret tt.

Definition check_wordpress (rootdir : path) : M unit :=
  for_each (os_walk rootdir) check_directory.

(** A whole run: a fresh [WordPressOnline], then the walk. *)
Definition main (rootdir : path) : result unit * state :=
  check_wordpress rootdir initial_state.

End Script.

(** ** A concrete instance

    An instance of [Libraries] and some worlds, to evaluate the script on. *)

Module Fixture.

(** *** The patterns of the script *)

(** [\s] on the characters below 256. *)
Definition is_space (c : ascii) : bool :=
  let n := nat_of_ascii c in
  ((9 <=? n) && (n <=? 13) || (28 <=? n) && (n <=? 32) || (n =? 133) || (n =? 160))%nat.

Definition is_newline (c : ascii) : bool := (nat_of_ascii c =? 10)%nat.

Definition is_digit_or_dot (c : ascii) : bool :=
  let n := nat_of_ascii c in
  ((48 <=? n) && (n <=? 57) || (n =? 46))%nat.

Definition is_not_quote (c : ascii) : bool := negb (nat_of_ascii c =? 39)%nat.

Fixpoint strip_prefix (p s : string) : option string :=
  match p, s with
  | EmptyString, _ => Some s
  | String a p', String b s' => if Ascii.eqb a b then strip_prefix p' s' else None
  | String _ _, EmptyString => None
  end.

(** The longest prefix of characters satisfying [f], and the rest. *)
Fixpoint span (f : ascii -> bool) (s : string) : string * string :=
  match s with
  | EmptyString => (EmptyString, EmptyString)
  | String c s' =>
      if f c then let '(a, b) := span f s' in (String c a, b)
      else (EmptyString, s)
  end.

(** The last character of [s] that is no newline. *)
Fixpoint last_on_line (s : string) : option (nat * ascii) :=
  match s with
  | EmptyString => None
  | String c s' =>
      match last_on_line s' with
      | Some (k, c') => Some (S k, c')
      | None => if is_newline c then None else Some (O, c)
      end
  end.

(** [key\s*(.+?)$] at the start of [s]: the capture and the length of the
    match.  [\s*] is greedy and gives characters back only when nothing but
    white space follows the key. *)
Definition match_header (key s : string) : option (string * nat) :=
  match strip_prefix key s with
  | None => None
  | Some after =>
      let '(ws, rest) := span is_space after in
      match rest with
      | String _ _ =>
          let capture := fst (span (fun c => negb (is_newline c)) rest) in
          Some (capture, String.length key + String.length ws + String.length capture)%nat
      | EmptyString =>
          match last_on_line ws with
          | Some (k, c) => Some (String c EmptyString, String.length key + k + 1)%nat
          | None => None
          end
      end
  end.

(** [Version:\s*([0-9\.]+)] at the start of [s]. *)
Definition match_page_version (s : string) : option (string * nat) :=
  match strip_prefix "Version:" s with
  | None => None
  | Some after =>
      let '(ws, rest) := span is_space after in
      let capture := fst (span is_digit_or_dot rest) in
      match capture with
      | EmptyString => None
      | String _ _ => Some (capture, 8 + String.length ws + String.length capture)%nat
      end
  end.

(** [\$wp_version\s*=\s*'([^']+)'] at the start of [s]. *)
Definition match_wp_version (s : string) : option (string * nat) :=
  match strip_prefix "$wp_version" s with
  | None => None
  | Some after =>
      let '(ws1, rest) := span is_space after in
      match strip_prefix "=" rest with
      | None => None
      | Some after =>
          let '(ws2, rest) := span is_space after in
          match strip_prefix "'" rest with
          | None => None
          | Some after =>
              let '(capture, rest) := span is_not_quote after in
              match capture, rest with
              | String _ _, String _ _ =>
                  Some (capture, 11 + String.length ws1 + 1 + String.length ws2 + 1
                                 + String.length capture + 1)%nat
              | _, _ => None
              end
          end
      end
  end.

(** [re.findall]: the matches from left to right, none overlapping. *)
Fixpoint findall_with (match_here : string -> option (string * nat)) (s : string)
    (skip : nat) : list string :=
  match s with
  | EmptyString => []
  | String _ s' =>
      match skip with
      | S k => findall_with match_here s' k
      | O =>
          match match_here s with
          | Some (capture, n) => capture :: findall_with match_here s' (n - 1)
          | None => findall_with match_here s' 0
          end
      end
  end.

Definition findall (pattern text : string) : list string :=
  if String.eqb pattern "Plugin Name:\s*(.+?)$" then
    findall_with (match_header "Plugin Name:") text 0
  else if String.eqb pattern "Version:\s*(.+?)$" then
    findall_with (match_header "Version:") text 0
  else if String.eqb pattern "Version:\s*([0-9\.]+)" then
    findall_with match_page_version text 0
  else if String.eqb pattern "\$wp_version\s*=\s*'([^']+)'" then
    findall_with match_wp_version text 0
  else [].

(** *** Versions: dotted numbers, anything else is a legacy version *)

Inductive version : Type :=
| Release (numbers : list nat)
| Legacy (s : string).

Definition digit_value (c : ascii) : option nat :=
  let n := nat_of_ascii c in
  if ((48 <=? n) && (n <=? 57))%nat then Some (n - 48)%nat else None.

(** The numbers between the dots of [s]; [acc] is the number being read. *)
Fixpoint read_numbers (s : string) (acc : option nat) : option (list nat) :=
  match s with
  | EmptyString => match acc with Some n => Some [n] | None => None end
  | String c s' =>
      if Ascii.eqb c "." then
        match acc, read_numbers s' None with
        | Some n, Some l => Some (n :: l)
        | _, _ => None
        end
      else
        match digit_value c with
        | Some d => read_numbers s' (Some (10 * default 0%nat acc + d)%nat)
        | None => None
        end
  end.

Definition parse (s : string) : version :=
  match read_numbers s None with
  | Some l => Release l
  | None => Legacy s
  end.

(** Release numbers compare as if padded with zeros. *)
Fixpoint numbers_lt (a b : list nat) : bool :=
  match a, b with
  | [], _ => existsb (fun n => negb (n =? 0)%nat) b
  | x :: a', [] => false
  | x :: a', y :: b' => (x <? y)%nat || (x =? y)%nat && numbers_lt a' b'
  end.

Definition lt (a b : version) : bool :=
  match a, b with
  | Release x, Release y => numbers_lt x y
  | Legacy _, Release _ => true
  | Release _, Legacy _ => false
  | Legacy x, Legacy y => String.ltb x y
  end.

Fixpoint digits (fuel n : nat) (acc : string) : string :=
  match fuel with
  | O => acc
  | S fuel' =>
      let acc' := String (ascii_of_nat (48 + n mod 10)) acc in
      if (n <? 10)%nat then acc' else digits fuel' (n / 10) acc'
  end.

Definition str (v : version) : string :=
  match v with
  | Release l => String.concat "." (map (fun n => digits (S n) n "") l)
  | Legacy s => s
  end.

(** *** Dates and pages *)

Definition day (n : Z) : datetime := n * microseconds_per_day.

(** Days are counted from 1 January 1970. *)
Definition known_dates : list (string * datetime) :=
  [("March 29, 2023", day 19445)].

Fixpoint table_lookup {A} (key : string) (l : list (string * A)) : option A :=
  match l with
  | [] => None
  | (k, a) :: l' => if String.eqb k key then Some a else table_lookup key l'
  end.

Definition document (contents : list node) : node := Tag "[document]" [] contents.

Definition releases_page : string :=
  "<table><tr><td>6.2</td><td>March 29, 2023</td></tr></table>".
Definition releases_tree : node :=
  document [Tag "table" [] [Tag "tr" [] [Tag "td" [] [NavigableString "6.2"];
                                         Tag "td" [] [NavigableString "March 29, 2023"]]]].

Definition no_row_page : string := "<table></table>".
Definition no_row_tree : node := document [Tag "table" [] []].

Definition one_cell_page : string := "<table><tr><td>6.2</td></tr></table>".
Definition one_cell_tree : node :=
  document [Tag "table" [] [Tag "tr" [] [Tag "td" [] [NavigableString "6.2"]]]].

Definition error_page : string := "<html><body>Service Unavailable</body></html>".
Definition error_tree : node :=
  document [Tag "html" [] [Tag "body" [] [NavigableString "Service Unavailable"]]].

Definition plugin_page : string :=
  "<div class='entry-meta'>Version: 2.0</div>".
Definition plugin_tree : node :=
  document [Tag "div" ["entry-meta"] [NavigableString "Version: 2.0"]].

Definition foo_page : string :=
  "<div class='entry-meta'>Version: 2.5</div>".
Definition foo_tree : node :=
  document [Tag "div" ["entry-meta"] [NavigableString "Version: 2.5"]].

Definition closed_page : string :=
  "<div class='notice'>This plugin has been closed</div><div class='entry-meta'></div>".
Definition closed_tree : node :=
  document [Tag "div" ["notice"] [NavigableString "This plugin has been closed"];
            Tag "div" ["entry-meta"] []].

Definition known_pages : list (string * node) :=
  [(releases_page, releases_tree); (no_row_page, no_row_tree);
   (one_cell_page, one_cell_tree); (error_page, error_tree);
   (plugin_page, plugin_tree); (foo_page, foo_tree); (closed_page, closed_tree)].

Definition parse_page (text : string) : node :=
  match table_lookup text known_pages with
  | Some tree => tree
  | None => document [NavigableString text]
  end.

(** The bytes below 128 decode to themselves, nothing else is read here. *)
Fixpoint all_ascii (s : string) : bool :=
  match s with
  | EmptyString => true
  | String c s' => (nat_of_ascii c <? 128)%nat && all_ascii s'
  end.

Definition libraries : Libraries := {|
  PackageVersion := version;
  version_parse := parse;
  version_lt := lt;
  version_str := str;
  re_findall := findall;
  re_findall_MULTILINE := findall;
  BeautifulSoup := parse_page;
  dateparser_parse := fun s => table_lookup s known_dates;
  decode_utf8 := fun rawdata => if all_ascii rawdata then Some rawdata else None;
  chardet_detect := fun _ => None;
  decode := fun _ _ => None
|}.

(** *** Worlds *)

Definition nl : string := String "010" EmptyString.
Definition lines (l : list string) : string := String.concat nl l.

Definition not_found : Response := {| ok := false; rtext := "Not Found" |}.
Definition page (text : string) : Response := {| ok := true; rtext := text |}.

(** The remote site: for each URL the responses to its successive requests,
    the last one repeated; any other URL is not found. *)
Definition web (site : list (string * list Response)) (log : list string) (url : string)
  : Response :=
  match table_lookup url site with
  | Some responses =>
      nth (count_occ string_dec log url) responses (List.last responses not_found)
  | None => not_found
  end.

Definition header (name version : string) : string :=
  lines ["<?php"; "/*"; "Plugin Name: " +:+ name; "Version: " +:+ version; "*/"].

Definition version_php (version : string) : string :=
  lines ["<?php"; "$wp_version = '" +:+ version +:+ "';"].

Definition plugins : fsnode :=
  Dir [("index.php", File "<?php // Silence is golden.");
       ("akismet", Dir [("akismet.php", File (header "Akismet" "1.0"));
                        ("readme.txt", File "Version: 9.9")])].

(** An installation with its core version and one outdated plugin. *)
Definition blog : fsnode :=
  Dir [("wp-content", Dir [("plugins", plugins)]);
       ("wp-includes", Dir [("version.php", File (version_php "6.2"))])].

(** The same installation without [version.php]. *)
Definition blog_without_version : fsnode :=
  Dir [("wp-content", Dir [("plugins", plugins)]);
       ("wp-includes", Dir [])].

(** Two regular files with the names of the two directories. *)
Definition two_files : fsnode :=
  Dir [("wp-content", File ""); ("wp-includes", File "")].

(** An installation whose only plugin directory is hidden. *)
Definition blog_with_hidden_plugin : fsnode :=
  Dir [("wp-content",
        Dir [("plugins", Dir [(".git", Dir [("hook.php", File (header "Hook" "1.0"))])])]);
       ("wp-includes", Dir [("version.php", File (version_php "6.2"))])].

(** A plugin with two PHP files that both carry a header. *)
Definition blog_with_two_headers : fsnode :=
  Dir [("wp-content",
        Dir [("plugins", Dir [("foo", Dir [("a.php", File (header "Foo" "1.0"));
                                           ("b.php", File (header "Foo" "2.0"))])])]);
       ("wp-includes", Dir [("version.php", File (version_php "6.2"))])].

(** A plugin with four PHP files: two with a header, then one with a
    [Plugin Name] only, then one with a [Version] only. *)
Definition blog_with_mixed_headers : fsnode :=
  Dir [("wp-content",
        Dir [("plugins",
              Dir [("foo", Dir [("a.php", File (header "Foo" "1.0"));
                                ("b.php", File (header "Foo" "2.0"));
                                ("c.php", File (lines ["<?php"; "// Plugin Name: Bar"]));
                                ("d.php", File (lines ["<?php"; "// Version: 3.0"]))])])]);
       ("wp-includes", Dir [("version.php", File (version_php "6.2"))])].

(** An installation with one plugin, whose page says closed and has no
    version. *)
Definition blog_with_closed_plugin : fsnode :=
  Dir [("wp-content",
        Dir [("plugins", Dir [("gone", Dir [("gone.php", File (header "Gone" "1.0"))])])]);
       ("wp-includes", Dir [("version.php", File (version_php "6.2"))])].

Definition wordpress_org : list (string * list Response) :=
  [("https://wordpress.org/download/releases/", [page releases_page]);
   ("https://wordpress.org/plugins/akismet", [page plugin_page]);
   ("https://wordpress.org/plugins/.git", [page plugin_page]);
   ("https://wordpress.org/plugins/foo", [page foo_page]);
   ("https://wordpress.org/plugins/gone", [page closed_page])].

(** The releases page is an error page, resp. has a table without a row,
    resp. a row with one cell. *)
Definition wordpress_org_down : list (string * list Response) :=
  [("https://wordpress.org/download/releases/",
    [{| ok := false; rtext := error_page |}])].
Definition wordpress_org_no_row : list (string * list Response) :=
  [("https://wordpress.org/download/releases/", [page no_row_page])].
Definition wordpress_org_one_cell : list (string * list Response) :=
  [("https://wordpress.org/download/releases/", [page one_cell_page])].

(** The installation is at [site], below the root. *)
Definition world (installation : fsnode) (site : list (string * list Response))
    (now : datetime) : World :=
  {| disk := Dir [("site", installation)];
     requests_get := web site;
     datetime_now := now |}.

(** 55 days, resp. 180 days and a half, resp. 181 days after 29 March 2023. *)
Definition may_2023 : datetime := day 19500.
Definition september_2023 : datetime := day 19625 + microseconds_per_day / 2.
Definition late_september_2023 : datetime := day 19626.

End Fixture.


(** ** Notions the properties are stated with *)

Section Notions.
Context {L : Libraries} {W : World}.

(** The version the script finds on a plugin page, lines 78 to 81. *)
Definition page_version (body : string) : option string :=
  match find_class "entry-meta" (BeautifulSoup body) with
  | Some entry_meta => head (re_findall "Version:\s*([0-9\.]+)" (text entry_meta))
  | None => None
  end.

(** The operations of a run that touch the state. *)
Inductive step : state -> state -> Prop :=
| step_print line s :
    step s (snd (print line s))
| step_core wp_version s :
    step s (snd (get_wp_branch_last_version_release_date wp_version s))
| step_plugin plugin_slug s :
    step s (snd (get_plugin_last_version plugin_slug s)).

(** [later s s']: [s'] is reached from [s] by any number of operations. *)
Definition later : relation state := rtc step.

(** A computation that leaves the state alone and does not depend on it. *)
Definition read_only {A} (c : M A) : Prop :=
  forall s s', c s = (fst (c s'), s).

(** The names of a listing the loop of [check_plugin] reads as PHP files. *)
Definition is_php_file (plugin_dir : path) (name : string) : bool :=
  os_path_isfile (os_path_join plugin_dir [name]) &&
  endswith (path_str (os_path_join plugin_dir [name])) ".php".

(** The first [Plugin Name] of a file, and its first [Version] provided
    it has a [Plugin Name]. *)
Definition name_of (php_code : string) : option string :=
  head (re_findall_MULTILINE "Plugin Name:\s*(.+?)$" php_code).

Definition version_of (php_code : string) : option string :=
  match name_of php_code with
  | Some _ => head (re_findall_MULTILINE "Version:\s*(.+?)$" php_code)
  | None => None
  end.

(** The lines the test on the release date prints. *)
Definition core_lines (release_date : option datetime) : list string :=
  match release_date with
  | None => [out_of_date_line]
  | Some release_date =>
      if (180 <? timedelta_days datetime_now release_date)%Z then [outdated_line] else []
  end.

(** The lines [check_plugin] prints for a plugin that is not closed. *)
Definition update_lines (plugin_slug : string) (plugin_version_str : string)
    (last_version : option PackageVersion) : list string :=
  match last_version with
  | Some last_version =>
      if version_lt (version_parse plugin_version_str) last_version then
        [update_line plugin_slug (version_parse plugin_version_str) last_version]
      else []
  | None => []
  end.

(** The table loop touches nothing but the core cache. *)
Definition same_but_wp_cache (s s' : state) : Prop :=
  http_log s' = http_log s /\ plugin_cache s' = plugin_cache s /\ stdout s' = stdout s.

(** The tables of the releases page as the lookup fetches it in state [s]. *)
Definition releases_tables (s : state) : list node :=
  find_all "table" (BeautifulSoup (rtext (requests_get (http_log s) releases_url))).

(** The response to a request for the page of a plugin sent in state [s],
    the version the lookup finds there and whether the closed marker is
    in it. *)
Definition plugin_response (s : state) (plugin_slug : string) : Response :=
  requests_get (http_log s) (plugin_url plugin_slug).

Definition fetched_version (s : state) (plugin_slug : string) : option string :=
  if ok (plugin_response s plugin_slug) then
    page_version (rtext (plugin_response s plugin_slug))
  else None.

Definition fetched_closed (s : state) (plugin_slug : string) : bool :=
  contains closed_marker (rtext (plugin_response s plugin_slug)).

(** How many requests for the releases page a log holds. *)
Definition releases_requests (log : list string) : nat :=
  count_occ string_dec log releases_url.

(** What one scanned file does to [(plugin_name, plugin_version_str)]. *)
Definition scan_code (vars : option string * option string) (php_code : string)
  : option string * option string :=
  match name_of php_code with
  | Some name0 =>
      match version_of php_code with
      | Some version0 => (Some name0, Some version0)
      | None => (Some name0, snd vars)
      end
  | None => vars
  end.

(** [codes] are the texts of the PHP files of [plugin_dir], in the order of
    the listing [names]. *)
Definition scanned_codes (plugin_dir : path) (names codes : list string) : Prop :=
  Forall2 (fun name php_code =>
             forall s, fst (read_file (os_path_join plugin_dir [name]) s) = Ok php_code)
          (List.filter (is_php_file plugin_dir) names) codes.

(** A table of the releases page the loop cannot read: no row, or a first
    row with fewer than two cells. *)
Definition malformed (table : node) : Prop :=
  find "tr" table = None \/
  exists tr, find "tr" table = Some tr /\ (length (find_all "td" tr) < 2)%nat.

(** A computation that changes the state by operations of [step] only. *)
Definition advances {A} (c : M A) : Prop :=
  forall s, later s (snd (c s)).

End Notions.

(** ** The runs the properties are tried on *)

Module Scenario.
Import Fixture.

(** The worlds of the runs below. *)
Definition in_may : World := world blog wordpress_org may_2023.
Definition in_september : World := world blog wordpress_org september_2023.
Definition in_late_september : World := world blog wordpress_org late_september_2023.
Definition without_version : World := world blog_without_version wordpress_org may_2023.
Definition with_two_files : World := world two_files wordpress_org may_2023.
Definition with_hidden_plugin : World := world blog_with_hidden_plugin wordpress_org may_2023.
Definition with_two_headers : World := world blog_with_two_headers wordpress_org may_2023.
Definition with_mixed_headers : World := world blog_with_mixed_headers wordpress_org may_2023.
Definition with_closed_plugin : World := world blog_with_closed_plugin wordpress_org may_2023.
Definition site_down : World := world blog wordpress_org_down may_2023.
Definition no_row : World := world blog wordpress_org_no_row may_2023.
Definition one_cell : World := world blog wordpress_org_one_cell may_2023.

Definition the_plugins : path := ["site"; "wp-content"; "plugins"].

(** The state after a first lookup, and after a plugin lookup that follows. *)
Definition after_core : @state libraries :=
  snd (@get_wp_branch_last_version_release_date libraries in_may "6.2" initial_state).
Definition after_plugin : @state libraries :=
  snd (@get_plugin_last_version libraries in_may "akismet" after_core).

(** The state after the lookup of the core version in [check_directory]. *)
Definition core_looked_up : @state libraries :=
  snd (@get_wp_branch_last_version_release_date libraries in_late_september "6.2"
         (emit [separator_line; wordpress_line ["site"]; version_line "6.2"] initial_state)).

(** The state after the lookup of the plugin in [check_plugin]. *)
Definition akismet_looked_up : @state libraries :=
  snd (@get_plugin_last_version libraries in_may "akismet" initial_state).

End Scenario.

(** ** Notions for the properties of the other paths of the script *)

Section MoreNotions.
Context {L : Libraries} {W : World}.

(** The version and date the table loop stores for a table, when it can
    read both. *)
Definition table_row (table : node) : option (string * datetime) :=
  match find "tr" table with
  | Some tr =>
      match find_all "td" tr with
      | td0 :: td1 :: _ =>
          match dateparser_parse (text td1) with
          | Some date => Some (text td0, date)
          | None => None
          end
      | _ => None
      end
  | None => None
  end.

(** The date of the last row whose version is exactly [wp_version]. *)
Fixpoint last_date (wp_version : string) (rows : list (string * datetime)) : option datetime :=
  match rows with
  | [] => None
  | (version, date) :: rows' =>
      match last_date wp_version rows' with
      | Some later_date => Some later_date
      | None => if String.eqb version wp_version then Some date else None
      end
  end.

(** A line of the report about the plugin [plugin_slug]. *)
Definition plugin_line (plugin_slug line : string) : Prop :=
  line = closed_line plugin_slug \/
  exists plugin_version last_version,
    line = update_line plugin_slug plugin_version last_version.

(** A URL the script can request. *)
Definition script_url (url : string) : Prop :=
  url = releases_url \/ exists plugin_slug, url = plugin_url plugin_slug.

(** How many requests for the page of a plugin a log holds. *)
Definition plugin_requests (plugin_slug : string) (log : list string) : nat :=
  count_occ string_dec log (plugin_url plugin_slug).

(** The subdirectories of the plugins directory of [wp_dir], in listing
    order, given its entries. *)
Definition plugin_subdirectories (wp_dir : path) (entries : list (string * fsnode))
  : list string :=
  List.filter
    (fun plugin_slug =>
       os_path_isdir (os_path_join (os_path_join wp_dir ["wp-content"; "plugins"])
                                   [plugin_slug]))
    (map fst entries).

(** What [check_directory] does after its first two lines. *)
Definition check_installation (wp_dir : path) : M unit :=
  bind (get_wp_version wp_dir) (fun wp_version =>
    match wp_version with
    | Some version0 =>
        if negb (truthy wp_version) then print skipping_line
        else
          bind (print (version_line version0)) (fun _ =>
          bind (get_wp_branch_last_version_release_date version0) (fun release_date =>
          bind (report_release_date release_date) (fun _ =>
          check_wordpress_plugins wp_dir)))
    | None => print skipping_line
    end).

(** From [s] to [s'], at most one request was sent for each of [slugs], in
    their order and for the page of that plugin, and at most one line was
    printed for each, in their order and about that plugin. *)
Definition scan_effects (slugs : list string) (s s' : state) : Prop :=
  exists (requested : list string) (reported : list (string * string)),
    sublist requested slugs /\
    http_log s' = http_log s ++ map plugin_url requested /\
    sublist (map fst reported) slugs /\
    stdout s' = stdout s ++ map snd reported /\
    Forall (fun r => plugin_line (fst r) (snd r)) reported.

End MoreNotions.

(** ** More runs *)

Module MoreFixture.
Import Fixture.

(** The page of a closed plugin that still shows a version. *)
Definition retired_page : string :=
  "<p>This plugin has been closed</p><div class='entry-meta'>Version: 3.0</div>".
Definition retired_tree : node :=
  document [Tag "p" [] [NavigableString "This plugin has been closed"];
            Tag "div" ["entry-meta"] [NavigableString "Version: 3.0"]].

(** A releases page with two branches and a repeated version. *)
Definition branches_page : string :=
  "<table><tr><td>6.2</td><td>March 29, 2023</td></tr></table>" +:+
  "<table><tr><td>6.1.1</td><td>November 15, 2022</td></tr></table>" +:+
  "<table><tr><td>6.2</td><td>March 30, 2023</td></tr></table>".
Definition release_table (version date : string) : node :=
  Tag "table" [] [Tag "tr" [] [Tag "td" [] [NavigableString version];
                               Tag "td" [] [NavigableString date]]].
Definition branches_tree : node :=
  document [release_table "6.2" "March 29, 2023";
            release_table "6.1.1" "November 15, 2022";
            release_table "6.2" "March 30, 2023"].

Definition more_pages : list (string * node) :=
  [(retired_page, retired_tree); (branches_page, branches_tree)].

Definition more_dates : list (string * datetime) :=
  [("March 29, 2023", day 19445); ("March 30, 2023", day 19446);
   ("November 15, 2022", day 19311)].

Definition parse_more (text : string) : node :=
  match table_lookup text more_pages with
  | Some tree => tree
  | None => parse_page text
  end.

Definition more_libraries : Libraries := {|
  PackageVersion := version;
  version_parse := parse;
  version_lt := lt;
  version_str := str;
  re_findall := findall;
  re_findall_MULTILINE := findall;
  BeautifulSoup := parse_more;
  dateparser_parse := fun s => table_lookup s more_dates;
  decode_utf8 := fun rawdata => if all_ascii rawdata then Some rawdata else None;
  chardet_detect := fun _ => None;
  decode := fun _ _ => None
|}.

Definition more_wordpress_org : list (string * list Response) :=
  [("https://wordpress.org/download/releases/", [page branches_page]);
   ("https://wordpress.org/plugins/akismet", [page plugin_page]);
   ("https://wordpress.org/plugins/retired", [page retired_page])].

Definition core : fsnode := Dir [("version.php", File (version_php "6.2"))].

(** An installation with an outdated plugin whose page says closed. *)
Definition blog_with_retired_plugin : fsnode :=
  Dir [("wp-content",
        Dir [("plugins",
              Dir [("retired", Dir [("retired.php", File (header "Retired" "1.0"))])])]);
       ("wp-includes", core)].

(** A plugin with a header file and a PHP file that is no UTF-8 text. *)
Definition latin1 : string := String (ascii_of_nat 233) EmptyString.
Definition blog_with_binary_file : fsnode :=
  Dir [("wp-content",
        Dir [("plugins",
              Dir [("foo", Dir [("a.php", File (header "Foo" "1.0"));
                                ("b.php", File latin1);
                                ("c.php", File (header "Foo" "2.0"))])])]);
       ("wp-includes", core)].

(** An installation whose [version.php] is a directory. *)
Definition blog_with_version_directory : fsnode :=
  Dir [("wp-content", Dir []);
       ("wp-includes", Dir [("version.php", Dir [])])].

(** An installation whose [plugins] is a regular file. *)
Definition blog_with_plugins_file : fsnode :=
  Dir [("wp-content", Dir [("plugins", File "")]);
       ("wp-includes", core)].

(** An installation with another one in its uploads. *)
Definition blog_with_nested_blog : fsnode :=
  Dir [("wp-content", Dir [("uploads", Dir [("old", blog)])]);
       ("wp-includes", core)].

Definition retired_world : World := world blog_with_retired_plugin more_wordpress_org may_2023.
Definition binary_world : World := world blog_with_binary_file more_wordpress_org may_2023.
Definition version_directory_world : World :=
  world blog_with_version_directory more_wordpress_org may_2023.
Definition plugins_file_world : World :=
  world blog_with_plugins_file more_wordpress_org may_2023.
Definition nested_world : World := world blog_with_nested_blog more_wordpress_org may_2023.
Definition branches_world : World := world blog more_wordpress_org may_2023.

End MoreFixture.

(** * Properties *)

Section Properties.
Context {L : Libraries} {W : World}.

(** ** The state and the monad *)

Lemma emit_nil (s : state) : emit [] s = s.
Proof. destruct s; unfold emit; simpl. by rewrite app_nil_r. Qed.

Lemma emit_emit (l1 l2 : list string) (s : state) :
  emit l2 (emit l1 s) = emit (l1 ++ l2) s.
Proof. unfold emit; simpl. by rewrite app_assoc. Qed.

(** A loop that skips the elements failing a test runs its body on the
    others. *)
Lemma for_each_skip {A} (keep : A -> bool) (body : A -> M unit) (l : list A) s :
  for_each l (fun x => if negb (keep x) then ret tt else body x) s
  = for_each (List.filter keep l) body s.
Proof.
  revert s. induction l as [|x l IH]; intros s; simpl; [done|].
  destruct (keep x); simpl.
  - unfold bind. destruct (body x s) as [[[]|e] s1]; [apply IH | done].
  - unfold bind, ret. apply IH.
Qed.

(** ** The filesystem *)

Lemma lookup_path_snoc (n : fsnode) (p : path) (name : string) :
  lookup_path n (p ++ [name]) =
  match lookup_path n p with
  | Some (Dir entries) => assoc name entries
  | _ => None
  end.
Proof.
  revert n. induction p as [|x p IH]; intros n; simpl.
  - destruct n as [|entries]; [done|]. by destruct (assoc name entries).
  - destruct n as [|entries]; [done|]. destruct (assoc x entries); [apply IH | done].
Qed.

Lemma os_path_exists_child (p : path) (name : string) :
  os_path_exists (os_path_join p [name]) = true <->
  exists entries, lookup_path disk p = Some (Dir entries) /\ is_Some (assoc name entries).
Proof.
  unfold os_path_exists, os_path_join. rewrite lookup_path_snoc.
  destruct (lookup_path disk p) as [[|entries]|]; split;
    try discriminate; try (by intros (? & ? & ?)).
  - destruct (assoc name entries) eqn:E; [|discriminate].
    intros _. exists entries. split; [done|]. rewrite E. by eexists.
  - intros (es & [= <-] & [c Hc]). by rewrite Hc.
Qed.

Lemma read_only_ret {A} (a : A) : read_only (ret a).
Proof. by intros s s'. Qed.

Lemma read_only_raise {A} (e : exn) : read_only (@raise L A e).
Proof. by intros s s'. Qed.

Lemma read_only_or_raise {A} (e : exn) (o : option A) : read_only (or_raise e o).
Proof. destruct o; [apply read_only_ret | apply read_only_raise]. Qed.

Lemma read_only_bind {A B} (c : M A) (k : A -> M B) :
  read_only c -> (forall a, read_only (k a)) -> read_only (bind c k).
Proof.
  intros Hc Hk s s'. unfold bind.
  rewrite (Hc s s'), (Hc s' s'). destruct (fst (c s')) as [a|e]; [apply Hk | done].
Qed.

Lemma read_only_for_fold {A B} (body : B -> A -> M B) (l : list A) (vars : B) :
  (forall vars x, read_only (body vars x)) -> read_only (for_fold l body vars).
Proof.
  intros Hbody. revert vars. induction l as [|x l IH]; intros vars; simpl.
  - apply read_only_ret.
  - apply read_only_bind; [apply Hbody | apply IH].
Qed.

Lemma read_only_read_file (file_name : path) : read_only (read_file file_name).
Proof.
  unfold read_file. destruct (lookup_path disk file_name) as [[rawdata|]|];
    try apply read_only_raise.
  destruct (decode_utf8 rawdata); [apply read_only_ret|].
  destruct (chardet_detect rawdata); [apply read_only_or_raise | apply read_only_raise].
Qed.

Lemma read_only_os_listdir (p : path) : read_only (os_listdir p).
Proof.
  unfold os_listdir. destruct (lookup_path disk p) as [[|]|];
    try apply read_only_raise. apply read_only_ret.
Qed.

Lemma read_only_scan_php_file plugin_dir vars php_file :
  read_only (scan_php_file plugin_dir vars php_file).
Proof.
  unfold scan_php_file. destruct (_ || _); [apply read_only_ret|].
  apply read_only_bind; [apply read_only_read_file|]. intros php_code.
  destruct (re_findall_MULTILINE _ php_code); [apply read_only_ret|].
  destruct (re_findall_MULTILINE _ php_code); apply read_only_ret.
Qed.

Lemma read_only_plugin_header plugin_dir : read_only (plugin_header plugin_dir).
Proof.
  apply read_only_bind; [apply read_only_os_listdir|]. intros php_files.
  apply read_only_for_fold. intros. apply read_only_scan_php_file.
Qed.

Lemma read_only_get_wp_version wp_dir : read_only (get_wp_version wp_dir).
Proof.
  unfold get_wp_version. destruct (negb _); [apply read_only_ret|].
  apply read_only_bind; [apply read_only_read_file|]. intros php_code.
  destruct (re_findall_MULTILINE _ php_code); apply read_only_ret.
Qed.

(** ** C8: the detector *)

(** A directory that lacks one of the two names is rejected. *)
Lemma is_wordpress_lacking (directory : path) (entries : list (string * fsnode)) :
  lookup_path disk directory = Some (Dir entries) ->
  assoc "wp-content" entries = None \/ assoc "wp-includes" entries = None ->
  is_wordpress directory = false.
Proof.
  intros Hd Hlack. apply not_true_is_false. unfold is_wordpress.
  rewrite andb_true_iff, !os_path_exists_child.
  intros [(es & Hd' & [c Hc]) (es' & Hd'' & [i Hi])].
  rewrite Hd in Hd', Hd''. injection Hd' as <-. injection Hd'' as <-.
  destruct Hlack; congruence.
Qed.

(** A directory that has both as subdirectories, empty or not, is accepted. *)
Lemma is_wordpress_subdirectories (directory : path) (entries : list (string * fsnode))
    (content includes : list (string * fsnode)) :
  lookup_path disk directory = Some (Dir entries) ->
  assoc "wp-content" entries = Some (Dir content) ->
  assoc "wp-includes" entries = Some (Dir includes) ->
  is_wordpress directory = true.
Proof.
  intros Hd Hc Hi. unfold is_wordpress.
  rewrite andb_true_iff, !os_path_exists_child.
  split; exists entries; rewrite ?Hc, ?Hi; eauto.
Qed.

(** C8, as amended: [is_wordpress] accepts a path exactly when it is a
    directory that has an entry named [wp-content] and an entry named
    [wp-includes]; what kind of entries they are does not matter. *)
Theorem is_wordpress_iff_entries (directory : path) :
  is_wordpress directory = true <->
  exists entries,
    lookup_path disk directory = Some (Dir entries) /\
    is_Some (assoc "wp-content" entries) /\
    is_Some (assoc "wp-includes" entries).
Proof.
  unfold is_wordpress. rewrite andb_true_iff, !os_path_exists_child. split.
  - intros [(es & Hd & Hc) (es' & Hd' & Hi)].
    rewrite Hd in Hd'. injection Hd' as <-. by exists es.
  - intros (es & Hd & Hc & Hi). split; by exists es.
Qed.

(** ** C9: the plugins of an installation *)

(** C9, as amended: [check_wordpress_plugins] prints the plugins line and
    checks, in listing order, every entry of the plugins directory that is
    a directory, whatever its name; the other entries are skipped. *)
Theorem plugins_are_the_subdirectories (wp_dir : path)
    (entries : list (string * fsnode)) (s : state) :
  lookup_path disk (os_path_join wp_dir ["wp-content"; "plugins"]) = Some (Dir entries) ->
  check_wordpress_plugins wp_dir s =
  for_each
    (List.filter
       (fun plugin_slug =>
          os_path_isdir (os_path_join (os_path_join wp_dir ["wp-content"; "plugins"])
                                      [plugin_slug]))
       (map fst entries))
    (check_plugin (os_path_join wp_dir ["wp-content"; "plugins"]))
    (emit ["Plugins: " +:+ path_str (os_path_join wp_dir ["wp-content"; "plugins"])] s).
Proof.
  intros Hdir. unfold check_wordpress_plugins.
  unfold os_path_exists, os_listdir. rewrite Hdir. simpl.
  unfold bind at 1. simpl. unfold bind at 1. simpl.
  apply for_each_skip.
Qed.

(** ** C1: an installation without a core version *)

(** C1, as amended: when no core version is found in an installation, the
    reporter prints the separator, the path and the "not found, skipping"
    line and goes on to the next directory: the core checks and the scan
    of the plugins are both skipped, no request is sent and the caches
    are as before. *)
Theorem no_version_skips_installation (wp_dir : path) (found : option string) (s : state) :
  is_wordpress wp_dir = true ->
  fst (get_wp_version wp_dir s) = Ok found ->
  truthy found = false ->
  check_directory wp_dir s
  = (Ok tt, emit [separator_line; wordpress_line wp_dir; skipping_line] s).
Proof.
  intros Hwp Hversion Hfalse. unfold check_directory. rewrite Hwp.
  unfold bind at 1. simpl. unfold bind at 1. simpl. unfold bind.
  rewrite (read_only_get_wp_version wp_dir _ s), Hversion. simpl.
  destruct found as [version0|]; [rewrite Hfalse|]; simpl;
    unfold print; by rewrite !emit_emit.
Qed.

(** ** The lookup of a core release *)

Lemma cache_table_ok (table : node) (s s' : state) :
  cache_table table s = (Ok tt, s') ->
  same_but_wp_cache s s' /\ wp_cache s' <> ∅.
Proof.
  unfold cache_table, bind, or_raise, ret, raise, wp_cache_store.
  destruct (find "tr" table) as [tr|]; [|discriminate].
  destruct (find_all "td" tr !! 0%nat); [|discriminate].
  destruct (find_all "td" tr !! 1%nat) as [td1|]; [|discriminate].
  destruct (dateparser_parse (text td1)); [|discriminate].
  intros [= <-]. simpl. split; [done|]. apply insert_non_empty.
Qed.

Lemma cache_table_raise (table : node) (e : exn) (s s' : state) :
  cache_table table s = (Raise e, s') -> s' = s.
Proof.
  unfold cache_table, bind, or_raise, ret, raise, wp_cache_store.
  destruct (find "tr" table) as [tr|]; [|congruence].
  destruct (find_all "td" tr !! 0%nat); [|congruence].
  destruct (find_all "td" tr !! 1%nat) as [td1|]; [|congruence].
  destruct (dateparser_parse (text td1)); [discriminate|congruence].
Qed.

Lemma cache_tables_frame (tables : list node) (r : result unit) (s s' : state) :
  for_each tables cache_table s = (r, s') ->
  same_but_wp_cache s s' /\ (wp_cache s <> ∅ -> wp_cache s' <> ∅).
Proof.
  revert s. induction tables as [|table tables IH]; intros s; simpl.
  - intros [= <- <-]. by repeat split.
  - unfold bind. destruct (cache_table table s) as [[[]|e] s1] eqn:E.
    + intros Hrest. destruct (cache_table_ok _ _ _ E) as [(H1 & H2 & H3) Hne].
      destruct (IH _ Hrest) as [(H4 & H5 & H6) Hkeep].
      repeat split; try congruence. intros _. by apply Hkeep.
    + intros [= <- <-]. rewrite (cache_table_raise _ _ _ _ E). by repeat split.
Qed.

(** A pass over at least one table that returns has stored an entry. *)
Lemma cache_tables_populate (tables : list node) (s s' : state) :
  tables <> [] ->
  for_each tables cache_table s = (Ok tt, s') ->
  wp_cache s' <> ∅.
Proof.
  destruct tables as [|table tables]; [done|]. intros _. simpl. unfold bind.
  destruct (cache_table table s) as [[[]|e] s1] eqn:E; [|discriminate].
  intros Hrest. destruct (cache_table_ok _ _ _ E) as [_ Hne].
  by apply (cache_tables_frame _ _ _ _ Hrest).
Qed.

Lemma core_lookup_cached (wp_version : string) (s : state) :
  wp_cache s <> ∅ ->
  get_wp_branch_last_version_release_date wp_version s = (Ok (wp_cache s !! wp_version), s).
Proof.
  intros Hne. unfold get_wp_branch_last_version_release_date, bind, get_state, ret.
  by rewrite bool_decide_false.
Qed.

Lemma core_lookup_fetch (wp_version : string) (s : state) :
  wp_cache s = ∅ ->
  get_wp_branch_last_version_release_date wp_version s =
  match for_each (releases_tables s) cache_table (requested releases_url s) with
  | (Ok _, s') => (Ok (wp_cache s' !! wp_version), s')
  | (Raise e, s') => (Raise e, s')
  end.
Proof.
  intros He. unfold get_wp_branch_last_version_release_date, bind, get_state, ret, http_get.
  rewrite bool_decide_true by done. unfold releases_tables.
  by destruct (for_each _ cache_table _) as [[[]|e] s'].
Qed.

(** A lookup that finds the cache empty sends one request for the page. *)
Lemma core_lookup_fetch_log (wp_version : string) (s : state) :
  wp_cache s = ∅ ->
  http_log (snd (get_wp_branch_last_version_release_date wp_version s))
  = http_log s ++ [releases_url].
Proof.
  intros He. rewrite core_lookup_fetch by done.
  destruct (for_each _ cache_table _) as [r s'] eqn:E.
  destruct (cache_tables_frame _ _ _ _ E) as [(Hlog & _) _].
  destruct r as [[]|e]; simpl; by rewrite Hlog.
Qed.

(** The lookup never prints and never touches the plugin cache. *)
Lemma core_lookup_frame (wp_version : string) (s : state) :
  stdout (snd (get_wp_branch_last_version_release_date wp_version s)) = stdout s /\
  plugin_cache (snd (get_wp_branch_last_version_release_date wp_version s)) = plugin_cache s.
Proof.
  destruct (decide (wp_cache s = ∅)) as [He|Hne].
  - rewrite core_lookup_fetch by done.
    destruct (for_each _ cache_table _) as [r s'] eqn:E.
    destruct (cache_tables_frame _ _ _ _ E) as [(_ & Hp & Hout) _].
    destruct r as [[]|e]; simpl; by rewrite Hp, Hout.
  - by rewrite core_lookup_cached.
Qed.

(** ** C2: a malformed releases page *)

Lemma cache_table_malformed (table : node) (s : state) :
  malformed table ->
  exists e, cache_table table s = (Raise e, s).
Proof.
  unfold cache_table, bind, or_raise, raise, ret.
  intros [-> | (tr & -> & Hlen)]; [by eauto|].
  destruct (find_all "td" tr) as [|td0 [|td1 tds]]; simpl in *; [by eauto | by eauto | lia].
Qed.

Lemma cache_tables_malformed (tables : list node) (s : state) :
  Exists malformed tables ->
  exists e, fst (for_each tables cache_table s) = Raise e.
Proof.
  intros Hbad. revert s. induction Hbad as [table tables Hbad | table tables _ IH]; intros s.
  - destruct (cache_table_malformed table s Hbad) as [e He].
    exists e. simpl. unfold bind. by rewrite He.
  - simpl. unfold bind. destruct (cache_table table s) as [[[]|e] s1]; [apply IH | by eauto].
Qed.

(** C2, on the code: when a table of the fetched releases page has no row,
    or a first row with fewer than two cells, the lookup does not return
    [None]: it raises. *)
Theorem malformed_releases_table_raises (wp_version : string) (s : state) :
  wp_cache s = ∅ ->
  Exists malformed (releases_tables s) ->
  exists e, fst (get_wp_branch_last_version_release_date wp_version s) = Raise e.
Proof.
  intros He Hbad. rewrite core_lookup_fetch by done.
  destruct (cache_tables_malformed _ (requested releases_url s) Hbad) as [e Hraise].
  exists e. destruct (for_each _ cache_table _) as [[[]|e'] s']; simpl in *; congruence.
Qed.

(** ** C5: when the releases page is fetched *)

Lemma plugin_url_not_releases (plugin_slug : string) : plugin_url plugin_slug <> releases_url.
Proof. unfold plugin_url, releases_url. simpl. discriminate. Qed.

Lemma releases_requests_app (log : list string) (url : string) :
  url <> releases_url -> releases_requests (log ++ [url]) = releases_requests log.
Proof.
  intros Hne. unfold releases_requests. rewrite count_occ_app. simpl.
  destruct (string_dec url releases_url); [done | lia].
Qed.

(** ** The lookup of a plugin *)

Lemma plugin_lookup_cached (plugin_slug : string) (v : PackageVersion) (c : bool) (s : state) :
  plugin_cache s !! plugin_slug = Some (v, c) ->
  get_plugin_last_version plugin_slug s = (Ok (Some v, Some c), s).
Proof.
  intros Hc. unfold get_plugin_last_version, bind, get_state. by rewrite Hc.
Qed.

Lemma plugin_lookup_fetch (plugin_slug : string) (s : state) :
  plugin_cache s !! plugin_slug = None ->
  get_plugin_last_version plugin_slug s =
  match fetched_version s plugin_slug with
  | Some found =>
      (Ok (Some (version_parse found), Some (fetched_closed s plugin_slug)),
       plugin_cached plugin_slug (version_parse found, fetched_closed s plugin_slug)
                     (requested (plugin_url plugin_slug) s))
  | None => (Ok (None, None), requested (plugin_url plugin_slug) s)
  end.
Proof.
  intros Hc. unfold get_plugin_last_version, bind, get_state, http_get. rewrite Hc.
  unfold fetched_version, fetched_closed, page_version, plugin_response.
  destruct (ok _); [|done].
  destruct (find_class "entry-meta" _) as [entry_meta|]; [|done].
  by destruct (re_findall _ (text entry_meta)).
Qed.

(** A lookup that is not served from the cache sends one request. *)
Lemma plugin_lookup_fetch_log (plugin_slug : string) (s : state) :
  plugin_cache s !! plugin_slug = None ->
  http_log (snd (get_plugin_last_version plugin_slug s))
  = http_log s ++ [plugin_url plugin_slug].
Proof.
  intros Hc. rewrite plugin_lookup_fetch by done.
  by destruct (fetched_version s plugin_slug).
Qed.

(** The lookup never prints and never touches the core cache. *)
Lemma plugin_lookup_frame (plugin_slug : string) (s : state) :
  stdout (snd (get_plugin_last_version plugin_slug s)) = stdout s /\
  wp_cache (snd (get_plugin_last_version plugin_slug s)) = wp_cache s.
Proof.
  destruct (plugin_cache s !! plugin_slug) as [[v c]|] eqn:Hc.
  - by rewrite (plugin_lookup_cached _ _ _ _ Hc).
  - rewrite plugin_lookup_fetch by done. by destruct (fetched_version s plugin_slug).
Qed.

(** ** What the operations of a run preserve *)

(** The plugin cache only grows. *)
Lemma step_plugin_cache (s s' : state) (plugin_slug : string) (entry : PackageVersion * bool) :
  step s s' ->
  plugin_cache s !! plugin_slug = Some entry ->
  plugin_cache s' !! plugin_slug = Some entry.
Proof.
  intros Hstep Hc. destruct Hstep as [line s | wp_version s | other s].
  - done.
  - by rewrite (proj2 (core_lookup_frame wp_version s)).
  - destruct (plugin_cache s !! other) as [[v c]|] eqn:Ho.
    + by rewrite (plugin_lookup_cached _ _ _ _ Ho).
    + rewrite plugin_lookup_fetch by done.
      destruct (fetched_version s other); simpl; [|done].
      rewrite lookup_insert_ne; [done | congruence].
Qed.

Lemma later_plugin_cache (s s' : state) (plugin_slug : string) (entry : PackageVersion * bool) :
  later s s' ->
  plugin_cache s !! plugin_slug = Some entry ->
  plugin_cache s' !! plugin_slug = Some entry.
Proof.
  induction 1 as [|s1 s2 s3 Hstep _ IH]; [done|].
  intros Hc. apply IH. by apply (step_plugin_cache s1).
Qed.

(** Once the core cache holds an entry, it keeps one and no operation
    requests the releases page. *)
Lemma step_populated (s s' : state) :
  step s s' ->
  wp_cache s <> ∅ ->
  wp_cache s' <> ∅ /\ releases_requests (http_log s') = releases_requests (http_log s).
Proof.
  intros Hstep Hne. destruct Hstep as [line s | wp_version s | plugin_slug s].
  - done.
  - by rewrite core_lookup_cached.
  - rewrite (proj2 (plugin_lookup_frame plugin_slug s)). split; [done|].
    destruct (plugin_cache s !! plugin_slug) as [[v c]|] eqn:Hc.
    + by rewrite (plugin_lookup_cached _ _ _ _ Hc).
    + rewrite plugin_lookup_fetch_log by done.
      apply releases_requests_app, plugin_url_not_releases.
Qed.

Lemma later_populated (s s' : state) :
  later s s' ->
  wp_cache s <> ∅ ->
  wp_cache s' <> ∅ /\ releases_requests (http_log s') = releases_requests (http_log s).
Proof.
  induction 1 as [|s1 s2 s3 Hstep _ IH]; [done|].
  intros Hne. destruct (step_populated _ _ Hstep Hne) as [Hne2 Hlog2].
  destruct (IH Hne2) as [Hne3 Hlog3]. split; [done | congruence].
Qed.

(** C5, as amended: a lookup that finds the version to date mapping empty
    requests the releases page once and fills the mapping in one pass over
    its tables.  If the lookup returns with at least one entry stored (as
    it does when the page has a table), every later lookup is a plain key
    lookup that changes nothing, and no later operation of the run requests
    the page again.  If it returns with the mapping still empty, the next
    lookup requests the page again. *)
Theorem releases_page_fetched_while_cache_empty (wp_version : string) (s s1 : state)
    (release_date : option datetime) :
  wp_cache s = ∅ ->
  get_wp_branch_last_version_release_date wp_version s = (Ok release_date, s1) ->
  http_log s1 = http_log s ++ [releases_url] /\
  (releases_tables s <> [] -> wp_cache s1 <> ∅) /\
  (wp_cache s1 <> ∅ ->
   forall s2 v, later s1 s2 ->
     get_wp_branch_last_version_release_date v s2 = (Ok (wp_cache s2 !! v), s2) /\
     releases_requests (http_log s2) = releases_requests (http_log s1)) /\
  (wp_cache s1 = ∅ ->
   forall v, http_log (snd (get_wp_branch_last_version_release_date v s1))
             = http_log s1 ++ [releases_url]).
Proof.
  intros Hempty Hrun. split; [|split; [|split]].
  - pose proof (core_lookup_fetch_log wp_version s Hempty) as Hlog.
    by rewrite Hrun in Hlog.
  - intros Htables. rewrite core_lookup_fetch in Hrun by done.
    destruct (for_each _ cache_table _) as [[[]|e] s'] eqn:E; [|discriminate].
    injection Hrun as _ <-. by apply (cache_tables_populate _ _ _ Htables E).
  - intros Hne s2 v Hlater. destruct (later_populated _ _ Hlater Hne) as [Hne2 Hlog].
    split; [by apply core_lookup_cached | done].
  - intros Hempty1 v. by apply core_lookup_fetch_log.
Qed.

(** ** C4: the plugin cache *)

(** C4: a lookup of a slug that is not cached sends a request.  If it finds
    a version, it returns it with the closed flag, caches the pair, and
    every later lookup of the slug returns the same pair and leaves the
    state, hence the log of requests, as it is.  If it finds none (the
    response is not ok, or the page has no version), it returns
    [(None, None)], changes nothing but the log, and the next lookup of
    the slug sends the request again. *)
Theorem plugin_lookup_caches_successes_only (plugin_slug : string) (s : state) :
  plugin_cache s !! plugin_slug = None ->
  match fetched_version s plugin_slug with
  | Some found =>
      exists s1,
        get_plugin_last_version plugin_slug s
        = (Ok (Some (version_parse found), Some (fetched_closed s plugin_slug)), s1) /\
        http_log s1 = http_log s ++ [plugin_url plugin_slug] /\
        plugin_cache s1 !! plugin_slug
        = Some (version_parse found, fetched_closed s plugin_slug) /\
        forall s2, later s1 s2 ->
          get_plugin_last_version plugin_slug s2
          = (Ok (Some (version_parse found), Some (fetched_closed s plugin_slug)), s2)
  | None =>
      get_plugin_last_version plugin_slug s
      = (Ok (None, None), requested (plugin_url plugin_slug) s) /\
      plugin_cache (requested (plugin_url plugin_slug) s) = plugin_cache s /\
      http_log (snd (get_plugin_last_version plugin_slug
                       (requested (plugin_url plugin_slug) s)))
      = http_log s ++ [plugin_url plugin_slug; plugin_url plugin_slug]
  end.
Proof.
  intros Hc. pose proof (plugin_lookup_fetch _ _ Hc) as Hrun.
  destruct (fetched_version s plugin_slug) as [found|].
  - eexists. split; [exact Hrun|]. split; [done|].
    split; [apply lookup_insert_eq|].
    intros s2 Hlater. apply plugin_lookup_cached.
    apply (later_plugin_cache _ _ _ _ Hlater). apply lookup_insert_eq.
  - split; [done|]. split; [done|].
    rewrite plugin_lookup_fetch_log by done. simpl. by rewrite <- app_assoc.
Qed.

(** ** Every change of the state is an operation of [step] *)

Lemma advances_ret {A} (a : A) : advances (ret a).
Proof. intros s. apply rtc_refl. Qed.

Lemma advances_read_only {A} (c : M A) : read_only c -> advances c.
Proof. intros Hc s. rewrite (Hc s s). apply rtc_refl. Qed.

Lemma advances_bind {A B} (c : M A) (k : A -> M B) :
  advances c -> (forall a, advances (k a)) -> advances (bind c k).
Proof.
  intros Hc Hk s. unfold bind. pose proof (Hc s) as H1.
  destruct (c s) as [[a|e] s1]; simpl in *; [|done].
  eapply rtc_trans; [exact H1 | apply Hk].
Qed.

Lemma advances_print (line : string) : advances (print line).
Proof. intros s. apply rtc_once, step_print. Qed.

Lemma advances_for_each {A} (l : list A) (body : A -> M unit) :
  (forall x, advances (body x)) -> advances (for_each l body).
Proof.
  intros Hbody. induction l as [|x l IH]; simpl; [apply advances_ret|].
  apply advances_bind; [apply Hbody | by intros _].
Qed.

Lemma advances_check_plugin (plugins_dir : path) (plugin_slug : string) :
  advances (check_plugin plugins_dir plugin_slug).
Proof.
  unfold check_plugin. apply advances_bind.
  { apply advances_read_only, read_only_plugin_header. }
  intros [[name|] [version|]]; try apply advances_ret.
  destruct (negb _ || negb _); [apply advances_ret|].
  apply advances_bind; [intros s; apply rtc_once, step_plugin|].
  intros [last [[|]|]]; simpl; try apply advances_print;
    (destruct last as [last|]; [|apply advances_ret]);
    (destruct (version_lt _ last); [apply advances_print | apply advances_ret]).
Qed.

Lemma advances_check_wordpress_plugins (wp_dir : path) :
  advances (check_wordpress_plugins wp_dir).
Proof.
  unfold check_wordpress_plugins. destruct (negb _); [apply advances_ret|].
  apply advances_bind; [apply advances_print|]. intros _.
  apply advances_bind; [apply advances_read_only, read_only_os_listdir|]. intros slugs.
  apply advances_for_each. intros plugin_slug.
  destruct (negb _); [apply advances_ret | apply advances_check_plugin].
Qed.

Lemma advances_check_directory (wp_dir : path) : advances (check_directory wp_dir).
Proof.
  unfold check_directory. destruct (is_wordpress wp_dir); [|apply advances_ret].
  apply advances_bind; [apply advances_print|]. intros _.
  apply advances_bind; [apply advances_print|]. intros _.
  apply advances_bind; [apply advances_read_only, read_only_get_wp_version|].
  intros [version0|]; [|apply advances_print].
  destruct (negb _); [apply advances_print|].
  apply advances_bind; [apply advances_print|]. intros _.
  apply advances_bind; [intros s; apply rtc_once, step_core|]. intros release_date.
  apply advances_bind; [|intros _; apply advances_check_wordpress_plugins].
  unfold report_release_date. destruct release_date as [date|]; [|apply advances_print].
  destruct (180 <? _)%Z; [apply advances_print | apply advances_ret].
Qed.

Lemma advances_check_wordpress (rootdir : path) : advances (check_wordpress rootdir).
Proof. apply advances_for_each, advances_check_directory. Qed.

(** In a walk that starts with an entry in the core cache, the releases
    page is not requested. *)
Lemma populated_walk_never_fetches (rootdir : path) (s : state) :
  wp_cache s <> ∅ ->
  releases_requests (http_log (snd (check_wordpress rootdir s)))
  = releases_requests (http_log s).
Proof.
  intros Hne.
  exact (proj2 (later_populated _ _ (advances_check_wordpress rootdir s) Hne)).
Qed.

(** In a walk, a plugin that is cached is never requested again. *)
Lemma cached_plugin_stays_cached (rootdir : path) (s : state) (plugin_slug : string)
    (entry : PackageVersion * bool) :
  plugin_cache s !! plugin_slug = Some entry ->
  plugin_cache (snd (check_wordpress rootdir s)) !! plugin_slug = Some entry.
Proof.
  intros Hc.
  exact (later_plugin_cache _ _ _ _ (advances_check_wordpress rootdir s) Hc).
Qed.

(** ** C10: a closed plugin page without a version *)

(** [check_plugin] prints nothing when the lookup finds no version. *)
Lemma check_plugin_unknown (plugins_dir : path) (plugin_slug : string) (s : state) :
  plugin_cache s !! plugin_slug = None ->
  fetched_version s plugin_slug = None ->
  stdout (snd (check_plugin plugins_dir plugin_slug s)) = stdout s.
Proof.
  intros Hc Hnone. unfold check_plugin, bind.
  rewrite (read_only_plugin_header _ s s).
  destruct (fst (plugin_header _ s)) as [[[name|] [version|]]|e]; try done.
  destruct (negb _ || negb _); [done|].
  rewrite plugin_lookup_fetch by done. by rewrite Hnone.
Qed.

(** C10: when the page of a plugin is fetched with an ok response that
    holds the closed marker but no version in its entry-meta region, the
    lookup returns [(None, None)], and [check_plugin] prints nothing for
    the plugin, in particular no CLOSED line. *)
Theorem closed_page_without_version_is_unknown (plugins_dir : path) (plugin_slug : string)
    (s : state) :
  plugin_cache s !! plugin_slug = None ->
  ok (plugin_response s plugin_slug) = true ->
  contains closed_marker (rtext (plugin_response s plugin_slug)) = true ->
  page_version (rtext (plugin_response s plugin_slug)) = None ->
  get_plugin_last_version plugin_slug s
  = (Ok (None, None), requested (plugin_url plugin_slug) s) /\
  stdout (snd (check_plugin plugins_dir plugin_slug s)) = stdout s.
Proof.
  intros Hc Hok _ Hversion.
  assert (fetched_version s plugin_slug = None) as Hnone.
  { unfold fetched_version. by rewrite Hok. }
  split; [|by apply check_plugin_unknown].
  rewrite plugin_lookup_fetch by done. by rewrite Hnone.
Qed.

(** ** C6: the report on the core *)

(** C6, as amended: for an installation with a detected core version, the
    reporter prints the separator, the path and the version, asks the
    oracle for the release date of exactly that version and, if the oracle
    returns, prints the OUT-OF-DATE line when there is no date, the
    "probabily outdated" line when the whole days from the release date to
    now, [(now - date).days], are more than 180, and nothing otherwise;
    then it goes on with the plugins. *)
Theorem core_report (wp_dir : path) (wp_version : string) (s s1 : state)
    (release_date : option datetime) :
  is_wordpress wp_dir = true ->
  fst (get_wp_version wp_dir s) = Ok (Some wp_version) ->
  wp_version <> "" ->
  get_wp_branch_last_version_release_date wp_version
    (emit [separator_line; wordpress_line wp_dir; version_line wp_version] s)
  = (Ok release_date, s1) ->
  stdout s1 = stdout s ++ [separator_line; wordpress_line wp_dir; version_line wp_version] /\
  check_directory wp_dir s
  = check_wordpress_plugins wp_dir (emit (core_lines release_date) s1).
Proof.
  intros Hwp Hversion Hne Hdate. split.
  - pose proof (proj1 (core_lookup_frame wp_version
      (emit [separator_line; wordpress_line wp_dir; version_line wp_version] s))) as Hout.
    by rewrite Hdate in Hout.
  - unfold check_directory. rewrite Hwp.
    unfold bind at 1. simpl. unfold bind at 1. simpl. unfold bind at 1.
    rewrite (read_only_get_wp_version wp_dir _ s), Hversion. simpl.
    assert (String.eqb wp_version "" = false) as -> by by apply String.eqb_neq.
    simpl. unfold bind at 1. simpl. rewrite !emit_emit. simpl.
    unfold bind at 1. rewrite Hdate.
    unfold report_release_date, core_lines, bind.
    destruct release_date as [date|]; simpl; [|done].
    destruct (180 <? timedelta_days datetime_now date)%Z; simpl; [done|].
    by rewrite emit_nil.
Qed.


(** ** C7: the report on a plugin *)

(** C7: for a plugin with a name and a version in its header whose lookup
    does not say closed, [check_plugin] prints the update line, from the
    detected to the latest version, when a latest version is known and
    the detected one is below it in the order of [packaging], and it
    prints nothing otherwise. *)
Theorem plugin_report (plugins_dir : path) (plugin_slug : string)
    (plugin_name plugin_version_str : string) (s s1 : state)
    (last_version : option PackageVersion) (closed : option bool) :
  fst (plugin_header (os_path_join plugins_dir [plugin_slug]) s)
  = Ok (Some plugin_name, Some plugin_version_str) ->
  plugin_name <> "" ->
  plugin_version_str <> "" ->
  get_plugin_last_version plugin_slug s = (Ok (last_version, closed), s1) ->
  closed <> Some true ->
  check_plugin plugins_dir plugin_slug s
  = (Ok tt, emit (update_lines plugin_slug plugin_version_str last_version) s1).
Proof.
  intros Hheader Hname Hversion Hlookup Hopen. unfold check_plugin, bind.
  rewrite (read_only_plugin_header _ s s), Hheader. simpl.
  assert (String.eqb plugin_name "" = false) as -> by by apply String.eqb_neq.
  assert (String.eqb plugin_version_str "" = false) as -> by by apply String.eqb_neq.
  simpl. rewrite Hlookup. simpl. unfold update_lines.
  destruct closed as [[|]|]; [done| |];
    (destruct last_version as [last|]; [|by rewrite emit_nil]);
    (destruct (version_lt _ last); [done | by rewrite emit_nil]).
Qed.

(** ** C3: the header of a plugin *)

(** The loop body on a name that is no PHP file, and on one that is. *)
Lemma scan_php_file_skip plugin_dir vars name s :
  is_php_file plugin_dir name = false ->
  scan_php_file plugin_dir vars name s = (Ok vars, s).
Proof.
  unfold is_php_file, scan_php_file. intros Hno.
  rewrite <- negb_andb, Hno. done.
Qed.

Lemma scan_php_file_code plugin_dir vars name php_code s :
  is_php_file plugin_dir name = true ->
  fst (read_file (os_path_join plugin_dir [name]) s) = Ok php_code ->
  scan_php_file plugin_dir vars name s = (Ok (scan_code vars php_code), s).
Proof.
  unfold is_php_file, scan_php_file. intros Hphp Hread.
  rewrite <- negb_andb, Hphp. simpl. unfold bind.
  rewrite (read_only_read_file _ s s), Hread.
  unfold scan_code, version_of, name_of. destruct vars as [name0 version0].
  destruct (re_findall_MULTILINE "Plugin Name:\s*(.+?)$" php_code); [done|]. simpl.
  by destruct (re_findall_MULTILINE "Version:\s*(.+?)$" php_code).
Qed.

(** The loop applies [scan_code] to the texts of the PHP files, in order. *)
Lemma scan_all plugin_dir names codes vars s :
  scanned_codes plugin_dir names codes ->
  for_fold names (scan_php_file plugin_dir) vars s = (Ok (fold_left scan_code codes vars), s).
Proof.
  unfold scanned_codes. revert codes vars.
  induction names as [|name names IH]; intros codes vars; simpl.
  - by inversion 1.
  - destruct (is_php_file plugin_dir name) eqn:Hphp.
    + inversion 1 as [|? php_code ? codes' Hread Hrest]; subst. simpl.
      unfold bind. rewrite (scan_php_file_code _ _ _ php_code) by done. by apply IH.
    + intros Hrest. unfold bind. rewrite scan_php_file_skip by done. by apply IH.
Qed.

Lemma version_of_none (php_code : string) :
  version_of php_code = None <->
  re_findall_MULTILINE "Plugin Name:\s*(.+?)$" php_code = [] \/
  re_findall_MULTILINE "Version:\s*(.+?)$" php_code = [].
Proof.
  unfold version_of, name_of.
  destruct (re_findall_MULTILINE "Plugin Name:\s*(.+?)$" php_code); simpl; [by intuition|].
  destruct (re_findall_MULTILINE "Version:\s*(.+?)$" php_code); simpl; by intuition.
Qed.

Lemma version_of_name (php_code version0 : string) :
  version_of php_code = Some version0 -> exists name0, name_of php_code = Some name0.
Proof. unfold version_of. destruct (name_of php_code); [eauto | done]. Qed.

(** Files without a [Plugin Name] change nothing. *)
Lemma scan_nameless (codes : list string) vars :
  Forall (fun php_code => name_of php_code = None) codes ->
  fold_left scan_code codes vars = vars.
Proof.
  revert vars. induction codes as [|c codes IH]; intros vars; [done|].
  inversion 1 as [|? ? Hc Hrest]; subst. simpl. unfold scan_code at 2. rewrite Hc. by apply IH.
Qed.

(** Files that do not have both keep the version. *)
Lemma scan_versionless (codes : list string) vars :
  Forall (fun php_code => version_of php_code = None) codes ->
  snd (fold_left scan_code codes vars) = snd vars.
Proof.
  revert vars. induction codes as [|c codes IH]; intros vars; [done|].
  inversion 1 as [|? ? Hc Hrest]; subst. simpl. rewrite IH by done.
  unfold scan_code. rewrite Hc. by destruct (name_of c).
Qed.

Lemma scan_last_name (before after : list string) (php_code name0 : string) vars :
  name_of php_code = Some name0 ->
  Forall (fun c => name_of c = None) after ->
  fst (fold_left scan_code (before ++ php_code :: after) vars) = Some name0.
Proof.
  intros Hname Hafter. rewrite fold_left_app. simpl. rewrite scan_nameless by done.
  unfold scan_code. rewrite Hname. by destruct (version_of php_code).
Qed.

Lemma scan_last_version (before after : list string) (php_code version0 : string) vars :
  version_of php_code = Some version0 ->
  Forall (fun c => version_of c = None) after ->
  snd (fold_left scan_code (before ++ php_code :: after) vars) = Some version0.
Proof.
  intros Hversion Hafter. rewrite fold_left_app. simpl. rewrite scan_versionless by done.
  unfold scan_code. destruct (version_of_name _ _ Hversion) as [name0 ->].
  by rewrite Hversion.
Qed.

(** C3, as amended: the extractor reads every PHP file at the top of the
    plugin directory, in listing order, and takes from each the first match
    of each pattern, looking for a [Version] only in a file that has a
    [Plugin Name].  The name it ends with is that of the last file with a
    [Plugin Name], the version that of the last file with both a
    [Plugin Name] and a [Version], whatever the files before hold; and
    when no file has both, [check_plugin] returns without a request and
    without a line. *)
Theorem last_header_wins (plugins_dir : path) (plugin_slug : string)
    (entries : list (string * fsnode)) (codes : list string) (s : state) :
  lookup_path disk (os_path_join plugins_dir [plugin_slug]) = Some (Dir entries) ->
  scanned_codes (os_path_join plugins_dir [plugin_slug]) (map fst entries) codes ->
  exists plugin_name plugin_version_str,
    plugin_header (os_path_join plugins_dir [plugin_slug]) s
    = (Ok (plugin_name, plugin_version_str), s) /\
    (forall before php_code after name0,
        codes = before ++ php_code :: after ->
        name_of php_code = Some name0 ->
        Forall (fun c => name_of c = None) after ->
        plugin_name = Some name0) /\
    (forall before php_code after version0,
        codes = before ++ php_code :: after ->
        version_of php_code = Some version0 ->
        Forall (fun c => version_of c = None) after ->
        plugin_version_str = Some version0) /\
    (Forall (fun c => version_of c = None) codes ->
     plugin_version_str = None /\
     check_plugin plugins_dir plugin_slug s = (Ok tt, s)).
Proof.
  intros Hdir Hcodes.
  assert (plugin_header (os_path_join plugins_dir [plugin_slug]) s
          = (Ok (fold_left scan_code codes (None, None)), s)) as Hrun.
  { unfold plugin_header, os_listdir, bind. rewrite Hdir. simpl. by apply scan_all. }
  destruct (fold_left scan_code codes (None, None)) as [plugin_name plugin_version_str] eqn:E.
  exists plugin_name, plugin_version_str. split; [done|].
  split; [|split].
  - intros before php_code after name0 -> Hname Hafter.
    pose proof (scan_last_name before after php_code name0 (None, None) Hname Hafter) as H.
    by rewrite E in H.
  - intros before php_code after version0 -> Hversion Hafter.
    pose proof (scan_last_version before after php_code version0 (None, None) Hversion Hafter) as H.
    by rewrite E in H.
  - intros Hnone. pose proof (scan_versionless codes (None, None) Hnone) as H.
    rewrite E in H. simpl in H. subst plugin_version_str. split; [done|].
    unfold check_plugin, bind. rewrite Hrun. by destruct plugin_name.
Qed.

End Properties.

(** * The properties on concrete runs *)

Module Runs.
Import Fixture Scenario.

(** ** C1 *)

(** The installation has a plugins directory with an outdated plugin and no
    [version.php]: the run prints three lines, none about the plugins, and
    sends no request. *)
Lemma plugins_not_scanned_without_version :
  @is_wordpress without_version ["site"] = true /\
  @os_path_exists without_version the_plugins = true /\
  fst (@main libraries without_version ["site"]) = Ok tt /\
  http_log (snd (@main libraries without_version ["site"])) = [] /\
  stdout (snd (@main libraries without_version ["site"]))
  = ["----------------------------------------"; "WordPress: site";
     "   wp-includes/version.php not found, skipping."].
Proof. repeat split; vm_compute; reflexivity. Qed.

Lemma no_version_skips_installation_witness :
  @check_directory libraries without_version ["site"] initial_state
  = (Ok tt, emit [separator_line; wordpress_line ["site"]; skipping_line] initial_state).
Proof.
  apply (@no_version_skips_installation libraries without_version ["site"] None);
    reflexivity.
Defined.

(** ** C2 *)

Lemma malformed_releases_table_raises_witness :
  exists e,
    fst (@get_wp_branch_last_version_release_date libraries no_row "6.2" initial_state)
    = Raise e.
Proof.
  apply (@malformed_releases_table_raises libraries no_row "6.2" initial_state).
  - reflexivity.
  - apply Exists_cons_hd. left. reflexivity.
Defined.

(** A run on an installation, with a releases page that has a table without
    a row, resp. a row with one cell: the run stops on the exception after
    the version line. *)
Example run_with_table_without_row :
  fst (@main libraries no_row ["site"]) = Raise AttributeError /\
  stdout (snd (@main libraries no_row ["site"]))
  = ["----------------------------------------"; "WordPress: site"; "   Version: 6.2"].
Proof. split; vm_compute; reflexivity. Qed.

Example run_with_row_of_one_cell :
  fst (@main libraries one_cell ["site"]) = Raise IndexError /\
  stdout (snd (@main libraries one_cell ["site"]))
  = ["----------------------------------------"; "WordPress: site"; "   Version: 6.2"].
Proof. split; vm_compute; reflexivity. Qed.

(** ** C3 *)

(** The last file with both a name and a version has [Foo] and [2.0], the
    last file with a name has [Bar] and no version, the last file with a
    version has [3.0]: the extractor ends with [Bar] and [2.0], which are
    the matches of no single file, and the report is about [2.0]. *)
Lemma name_and_version_of_different_files :
  map (fun php_code =>
         (head (findall "Plugin Name:\s*(.+?)$" php_code),
          head (findall "Version:\s*(.+?)$" php_code)))
      [header "Foo" "1.0"; header "Foo" "2.0";
       lines ["<?php"; "// Plugin Name: Bar"]; lines ["<?php"; "// Version: 3.0"]]
  = [(Some "Foo", Some "1.0"); (Some "Foo", Some "2.0");
     (Some "Bar", None); (None, Some "3.0")] /\
  @plugin_header libraries with_mixed_headers (os_path_join the_plugins ["foo"]) initial_state
  = (Ok (Some "Bar", Some "2.0"), initial_state) /\
  stdout (snd (@check_plugin libraries with_mixed_headers the_plugins "foo" initial_state))
  = ["   foo: updated required from 2.0 to 2.5"].
Proof. repeat split; vm_compute; reflexivity. Qed.

(** Two files with a header, the second one with version 2.0. *)
Lemma last_header_wins_witness :
  @plugin_header libraries with_two_headers (os_path_join the_plugins ["foo"]) initial_state
  = (Ok (Some "Foo", Some "2.0"), initial_state).
Proof.
  destruct (@last_header_wins libraries with_two_headers the_plugins "foo"
              [("a.php", File (header "Foo" "1.0")); ("b.php", File (header "Foo" "2.0"))]
              [header "Foo" "1.0"; header "Foo" "2.0"] initial_state)
    as (plugin_name & plugin_version_str & Hrun & Hname & Hversion & _).
  - reflexivity.
  - repeat constructor.
  - rewrite Hrun.
    rewrite (Hname [header "Foo" "1.0"] (header "Foo" "2.0") [] "Foo");
      [|reflexivity|reflexivity|constructor].
    rewrite (Hversion [header "Foo" "1.0"] (header "Foo" "2.0") [] "2.0");
      [|reflexivity|reflexivity|constructor].
    reflexivity.
Defined.

(** ** C4 *)

Lemma plugin_lookup_caches_successes_only_witness :
  exists s1,
    @get_plugin_last_version libraries in_may "akismet" initial_state
    = (Ok (Some (Release [2; 0]%nat), Some false), s1) /\
    http_log s1 = ["https://wordpress.org/plugins/akismet"] /\
    forall s2, @later libraries in_may s1 s2 ->
      @get_plugin_last_version libraries in_may "akismet" s2
      = (Ok (Some (Release [2; 0]%nat), Some false), s2).
Proof.
  pose proof (@plugin_lookup_caches_successes_only libraries in_may "akismet" initial_state
                eq_refl) as H.
  change (@fetched_version libraries in_may initial_state "akismet") with (Some "2.0") in H.
  destruct H as (s1 & Hrun & Hlog & _ & Hlater).
  exists s1. split; [exact Hrun|]. split; [exact Hlog|]. exact Hlater.
Defined.

(** A slug without a page: two lookups in a row send two requests. *)
Example unknown_plugin_is_fetched_again :
  @get_plugin_last_version libraries in_may "nothing" initial_state
  = (Ok (None, None), requested "https://wordpress.org/plugins/nothing" initial_state) /\
  http_log (snd (@get_plugin_last_version libraries in_may "nothing"
                   (requested "https://wordpress.org/plugins/nothing" initial_state)))
  = ["https://wordpress.org/plugins/nothing"; "https://wordpress.org/plugins/nothing"].
Proof. split; reflexivity. Qed.

(** ** C5 *)

(** The releases page is an error page without a table: each of two
    lookups in a row returns [None] and requests the page. *)
Lemma empty_releases_page_is_fetched_again :
  fst (@get_wp_branch_last_version_release_date libraries site_down "6.2" initial_state)
  = Ok None /\
  http_log (snd (@get_wp_branch_last_version_release_date libraries site_down "6.2"
                   (snd (@get_wp_branch_last_version_release_date libraries site_down "6.2"
                           initial_state))))
  = ["https://wordpress.org/download/releases/"; "https://wordpress.org/download/releases/"].
Proof. split; vm_compute; reflexivity. Qed.

Lemma releases_page_fetched_while_cache_empty_witness :
  http_log after_core = ["https://wordpress.org/download/releases/"] /\
  @get_wp_branch_last_version_release_date libraries in_may "6.2" after_plugin
  = (Ok (Some (day 19445)), after_plugin) /\
  releases_requests (http_log after_plugin) = 1%nat.
Proof.
  destruct (@releases_page_fetched_while_cache_empty libraries in_may "6.2"
              initial_state after_core (Some (day 19445)))
    as (Hlog & Hfilled & Hlater & _).
  - reflexivity.
  - reflexivity.
  - split; [exact Hlog|].
    destruct (Hlater (Hfilled ltac:(discriminate)) after_plugin "6.2") as [Hrun Hsame].
    + apply rtc_once. apply (@step_plugin libraries in_may).
    + split; [|rewrite Hsame; reflexivity]. rewrite Hrun. reflexivity.
Defined.

(** ** C6 *)

(** The release is 180 days and a half old: the run prints no line about
    the age of the core. *)
Lemma half_a_day_past_180_is_not_reported :
  fst (@get_wp_branch_last_version_release_date libraries in_september "6.2" initial_state)
  = Ok (Some (day 19445)) /\
  (180 * microseconds_per_day < @datetime_now in_september - day 19445)%Z /\
  stdout (snd (@main libraries in_september ["site"]))
  = ["----------------------------------------"; "WordPress: site"; "   Version: 6.2";
     "Plugins: site/wp-content/plugins"; "   akismet: updated required from 1.0 to 2.0"].
Proof. repeat split; vm_compute; reflexivity. Qed.

Lemma core_report_witness :
  stdout core_looked_up
  = ["----------------------------------------"; "WordPress: site"; "   Version: 6.2"] /\
  @check_directory libraries in_late_september ["site"] initial_state
  = @check_wordpress_plugins libraries in_late_september ["site"]
      (emit ["   This WordPress version is probabily outdated"] core_looked_up).
Proof.
  apply (@core_report libraries in_late_september ["site"] "6.2" initial_state core_looked_up
           (Some (day 19445))).
  - reflexivity.
  - reflexivity.
  - discriminate.
  - reflexivity.
Defined.

(** ** C7 *)

Lemma plugin_report_witness :
  @check_plugin libraries in_may the_plugins "akismet" initial_state
  = (Ok tt, emit ["   akismet: updated required from 1.0 to 2.0"] akismet_looked_up).
Proof.
  apply (@plugin_report libraries in_may the_plugins "akismet" "Akismet" "1.0"
           initial_state akismet_looked_up (Some (Release [2; 0]%nat)) (Some false)).
  - reflexivity.
  - discriminate.
  - discriminate.
  - reflexivity.
  - discriminate.
Defined.

(** ** C8 *)

(** The detector accepts a directory that holds two regular files named
    [wp-content] and [wp-includes], and no subdirectory at all. *)
Lemma is_wordpress_two_files :
  @is_wordpress with_two_files ["site"] = true /\
  @os_path_isdir with_two_files ["site"; "wp-content"] = false /\
  @os_path_isdir with_two_files ["site"; "wp-includes"] = false.
Proof. repeat split; reflexivity. Qed.

(** ** C9 *)

(** The only entry of the plugins directory is the hidden directory [.git]:
    it is looked up and reported like any plugin. *)
Lemma hidden_directory_is_checked :
  fst (@check_wordpress_plugins libraries with_hidden_plugin ["site"] initial_state) = Ok tt /\
  http_log (snd (@check_wordpress_plugins libraries with_hidden_plugin ["site"] initial_state))
  = ["https://wordpress.org/plugins/.git"] /\
  stdout (snd (@check_wordpress_plugins libraries with_hidden_plugin ["site"] initial_state))
  = ["Plugins: site/wp-content/plugins"; "   .git: updated required from 1.0 to 2.0"].
Proof. repeat split; vm_compute; reflexivity. Qed.

Lemma plugins_are_the_subdirectories_witness :
  @check_wordpress_plugins libraries in_may ["site"] initial_state
  = for_each ["akismet"] (@check_plugin libraries in_may the_plugins)
      (emit ["Plugins: site/wp-content/plugins"] initial_state).
Proof.
  apply (@plugins_are_the_subdirectories libraries in_may ["site"]
           [("index.php", File "<?php // Silence is golden.");
            ("akismet", Dir [("akismet.php", File (header "Akismet" "1.0"));
                             ("readme.txt", File "Version: 9.9")])]
           initial_state).
  reflexivity.
Defined.

(** ** C10 *)

Lemma closed_page_without_version_is_unknown_witness :
  @get_plugin_last_version libraries with_closed_plugin "gone" initial_state
  = (Ok (None, None), requested "https://wordpress.org/plugins/gone" initial_state) /\
  stdout (snd (@check_plugin libraries with_closed_plugin the_plugins "gone" initial_state))
  = [].
Proof.
  apply (@closed_page_without_version_is_unknown libraries with_closed_plugin
           the_plugins "gone" initial_state); reflexivity.
Defined.

End Runs.

(** * Properties of the other paths of the script *)

Section Coverage.
Context {L : Libraries} {W : World}.

(** ** The plugin lookup *)


(** ** What a walk does to the state *)

Lemma plugin_url_inj (a b : string) : plugin_url a = plugin_url b -> a = b.
Proof. unfold plugin_url. cbn. intros Heq. by simplify_eq. Qed.

Lemma plugin_requests_app (plugin_slug url : string) (log : list string) :
  url <> plugin_url plugin_slug ->
  plugin_requests plugin_slug (log ++ [url]) = plugin_requests plugin_slug log.
Proof.
  intros Hne. unfold plugin_requests. rewrite count_occ_app. simpl.
  destruct (string_dec url (plugin_url plugin_slug)); [done | lia].
Qed.

(** A slug that is cached is not requested by any operation. *)
Lemma step_cached_requests (s s' : state) (plugin_slug : string)
    (entry : PackageVersion * bool) :
  step s s' ->
  plugin_cache s !! plugin_slug = Some entry ->
  plugin_requests plugin_slug (http_log s') = plugin_requests plugin_slug (http_log s).
Proof.
  intros Hstep Hc. destruct Hstep as [line s | wp_version s | other s].
  - done.
  - destruct (decide (wp_cache s = ∅)) as [He|Hne].
    + rewrite core_lookup_fetch_log by done. apply plugin_requests_app.
      intros Heq. by apply (plugin_url_not_releases plugin_slug).
    + by rewrite core_lookup_cached.
  - destruct (plugin_cache s !! other) as [[v c]|] eqn:Ho.
    + by rewrite (plugin_lookup_cached _ _ _ _ Ho).
    + rewrite plugin_lookup_fetch_log by done. apply plugin_requests_app.
      intros Heq. apply plugin_url_inj in Heq. congruence.
Qed.

Lemma later_cached_requests (s s' : state) (plugin_slug : string)
    (entry : PackageVersion * bool) :
  later s s' ->
  plugin_cache s !! plugin_slug = Some entry ->
  plugin_requests plugin_slug (http_log s') = plugin_requests plugin_slug (http_log s).
Proof.
  induction 1 as [|s1 s2 s3 Hstep _ IH]; [done|].
  intros Hc. rewrite IH by by apply (step_plugin_cache s1).
  by apply (step_cached_requests s1 s2 _ entry).
Qed.

(** In a walk, a plugin that is in the cache stays there with its entry
    and its page is not requested. *)
Theorem cached_plugin_never_requested (rootdir : path) (s : state) (plugin_slug : string)
    (entry : PackageVersion * bool) :
  plugin_cache s !! plugin_slug = Some entry ->
  plugin_cache (snd (check_wordpress rootdir s)) !! plugin_slug = Some entry /\
  plugin_requests plugin_slug (http_log (snd (check_wordpress rootdir s)))
  = plugin_requests plugin_slug (http_log s).
Proof.
  intros Hc. pose proof (advances_check_wordpress rootdir s) as Hlater. split.
  - by apply (later_plugin_cache s).
  - by apply (later_cached_requests s _ _ entry).
Qed.

(** An operation appends to the log and to the output and adds to the
    caches. *)
Lemma step_grows (s s' : state) :
  step s s' ->
  (exists urls, http_log s' = http_log s ++ urls /\ Forall script_url urls) /\
  (exists new_lines, stdout s' = stdout s ++ new_lines) /\
  wp_cache s ⊆ wp_cache s' /\
  plugin_cache s ⊆ plugin_cache s'.
Proof.
  assert (forall log : list string,
            exists urls, log = log ++ urls /\ Forall script_url urls) as Hsame.
  { intros log. exists []. by rewrite app_nil_r. }
  assert (forall out : list string, exists new_lines, out = out ++ new_lines) as Hquiet.
  { intros out. exists []. by rewrite app_nil_r. }
  intros Hstep. destruct Hstep as [line s | wp_version s | plugin_slug s].
  - simpl. split; [apply Hsame|]. split; [by exists [line]|]. done.
  - destruct (core_lookup_frame wp_version s) as [Hout Hp]. rewrite Hout, Hp.
    destruct (decide (wp_cache s = ∅)) as [He|Hne].
    + rewrite core_lookup_fetch_log by done. split; [|split; [apply Hquiet|split; [|done]]].
      * exists [releases_url]. split; [done|]. constructor; [by left | constructor].
      * rewrite He. apply map_empty_subseteq.
    + rewrite core_lookup_cached by done. simpl.
      split; [apply Hsame|]. split; [apply Hquiet|]. done.
  - destruct (plugin_lookup_frame plugin_slug s) as [Hout Hw]. rewrite Hout, Hw.
    destruct (plugin_cache s !! plugin_slug) as [[v c]|] eqn:Hc.
    + rewrite (plugin_lookup_cached _ _ _ _ Hc). simpl.
      split; [apply Hsame|]. split; [apply Hquiet|]. done.
    + rewrite plugin_lookup_fetch_log by done. split; [|split; [apply Hquiet|split; [done|]]].
      * exists [plugin_url plugin_slug]. split; [done|].
        constructor; [right; by eexists | constructor].
      * rewrite plugin_lookup_fetch by done.
        destruct (fetched_version s plugin_slug); simpl; [|done].
        by apply insert_subseteq.
Qed.

Lemma later_grows (s s' : state) :
  later s s' ->
  (exists urls, http_log s' = http_log s ++ urls /\ Forall script_url urls) /\
  (exists new_lines, stdout s' = stdout s ++ new_lines) /\
  wp_cache s ⊆ wp_cache s' /\
  plugin_cache s ⊆ plugin_cache s'.
Proof.
  induction 1 as [s|s1 s2 s3 Hstep _ IH].
  - split; [exists []; by rewrite app_nil_r|].
    split; [exists []; by rewrite app_nil_r|]. done.
  - destruct (step_grows _ _ Hstep) as ((u1 & Hu1 & Fu1) & (l1 & Hl1) & Hw1 & Hp1).
    destruct IH as ((u2 & Hu2 & Fu2) & (l2 & Hl2) & Hw2 & Hp2).
    split; [|split; [|split]].
    + exists (u1 ++ u2). rewrite Hu2, Hu1, app_assoc. split; [done|]. by apply Forall_app.
    + exists (l1 ++ l2). by rewrite Hl2, Hl1, app_assoc.
    + by etrans.
    + by etrans.
Qed.

(** A walk, whether it returns or raises, only appends to the log of
    requests and to the output, requests nothing but the releases page and
    pages of plugins, and removes or changes no entry of the two caches. *)
Theorem walk_only_appends (rootdir : path) (s : state) :
  (exists urls, http_log (snd (check_wordpress rootdir s)) = http_log s ++ urls /\
                Forall script_url urls) /\
  (exists new_lines, stdout (snd (check_wordpress rootdir s)) = stdout s ++ new_lines) /\
  wp_cache s ⊆ wp_cache (snd (check_wordpress rootdir s)) /\
  plugin_cache s ⊆ plugin_cache (snd (check_wordpress rootdir s)).
Proof. apply later_grows, advances_check_wordpress. Qed.

(** ** [check_plugin] and [check_wordpress_plugins] *)

Lemma plugin_lookup_log (plugin_slug : string) (s : state) :
  http_log (snd (get_plugin_last_version plugin_slug s)) = http_log s \/
  http_log (snd (get_plugin_last_version plugin_slug s))
  = http_log s ++ [plugin_url plugin_slug].
Proof.
  destruct (plugin_cache s !! plugin_slug) as [[v c]|] eqn:Hc.
  - left. by rewrite (plugin_lookup_cached _ _ _ _ Hc).
  - right. by apply plugin_lookup_fetch_log.
Qed.


Lemma scan_effects_refl (slugs : list string) (s : state) : scan_effects slugs s s.
Proof.
  exists [], []. simpl. rewrite !app_nil_r.
  split; [apply sublist_nil_l|]. split; [done|]. split; [apply sublist_nil_l|]. done.
Qed.

Lemma scan_effects_app (l1 l2 : list string) (s1 s2 s3 : state) :
  scan_effects l1 s1 s2 -> scan_effects l2 s2 s3 -> scan_effects (l1 ++ l2) s1 s3.
Proof.
  intros (q1 & r1 & Hq1 & Hlog1 & Hr1 & Hout1 & F1) (q2 & r2 & Hq2 & Hlog2 & Hr2 & Hout2 & F2).
  exists (q1 ++ q2), (r1 ++ r2). rewrite !map_app.
  split; [by apply sublist_app|]. split; [by rewrite Hlog2, Hlog1, app_assoc|].
  split; [by apply sublist_app|]. split; [by rewrite Hout2, Hout1, app_assoc|].
  by apply Forall_app.
Qed.

(** One plugin: a lookup that sends at most one request, then at most one
    line. *)
Lemma scan_effects_one (plugin_slug : string) (s s1 s' : state) :
  http_log s1 = http_log s \/ http_log s1 = http_log s ++ [plugin_url plugin_slug] ->
  stdout s1 = stdout s ->
  s' = s1 \/ (exists line, plugin_line plugin_slug line /\ s' = emit [line] s1) ->
  scan_effects [plugin_slug] s s'.
Proof.
  intros Hlog Hout Hline.
  assert (exists requested, sublist requested [plugin_slug] /\
            http_log s1 = http_log s ++ map plugin_url requested) as (requested & Hsub & Hreq).
  { destruct Hlog as [Hlog|Hlog].
    - exists []. split; [apply sublist_nil_l | by rewrite app_nil_r].
    - by exists [plugin_slug]. }
  destruct Hline as [-> | (line & Hline & ->)].
  - exists requested, []. simpl. rewrite app_nil_r.
    split; [done|]. split; [done|]. split; [apply sublist_nil_l|]. by split.
  - exists requested, [(plugin_slug, line)]. simpl.
    split; [done|]. split; [done|]. split; [done|]. split; [by rewrite Hout|].
    constructor; [done | constructor].
Qed.

Lemma check_plugin_effects (plugins_dir : path) (plugin_slug : string) (s : state) :
  scan_effects [plugin_slug] s (snd (check_plugin plugins_dir plugin_slug s)).
Proof.
  unfold check_plugin, bind. rewrite (read_only_plugin_header _ s s).
  destruct (fst (plugin_header _ s)) as [[[name|] [version|]]|e]; simpl;
    try apply scan_effects_refl.
  destruct (negb _ || negb _); simpl; [apply scan_effects_refl|].
  pose proof (plugin_lookup_log plugin_slug s) as Hlog.
  pose proof (proj1 (plugin_lookup_frame plugin_slug s)) as Hout.
  destruct (get_plugin_last_version plugin_slug s) as [[[last closed]|e] s1]; simpl in *.
  - apply (scan_effects_one plugin_slug s s1); [done | done |].
    destruct closed as [[|]|]; simpl.
    + right. exists (closed_line plugin_slug). split; [by left | done].
    + destruct last as [last|]; [|by left].
      destruct (version_lt _ last); [|by left].
      right. eexists. split; [right; by eexists _, _ | done].
    + destruct last as [last|]; [|by left].
      destruct (version_lt _ last); [|by left].
      right. eexists. split; [right; by eexists _, _ | done].
  - apply (scan_effects_one plugin_slug s s1); [done | done | by left].
Qed.

Lemma check_plugins_effects (plugins_dir : path) (slugs : list string) (s : state) :
  scan_effects slugs s (snd (for_each slugs (check_plugin plugins_dir) s)).
Proof.
  revert s. induction slugs as [|plugin_slug slugs IH]; intros s; simpl.
  - apply scan_effects_refl.
  - unfold bind. pose proof (check_plugin_effects plugins_dir plugin_slug s) as Hone.
    destruct (check_plugin plugins_dir plugin_slug s) as [[[]|e] s1]; simpl in *.
    + apply (scan_effects_app [plugin_slug] slugs s s1); [done | apply IH].
    + apply (scan_effects_app [plugin_slug] slugs s s1); [done | apply scan_effects_refl].
Qed.

(** The scan of a plugins directory, whether it returns or raises, prints
    the plugins line, then at most one line for each subdirectory, in
    listing order, each the CLOSED or the update line of that subdirectory;
    and it sends at most one request for each subdirectory, in listing
    order, each for the page of that subdirectory. *)
Theorem plugin_scan_effects (wp_dir : path) (entries : list (string * fsnode)) (s : state) :
  lookup_path disk (os_path_join wp_dir ["wp-content"; "plugins"]) = Some (Dir entries) ->
  scan_effects (plugin_subdirectories wp_dir entries)
    (emit ["Plugins: " +:+ path_str (os_path_join wp_dir ["wp-content"; "plugins"])] s)
    (snd (check_wordpress_plugins wp_dir s)).
Proof.
  intros Hdir. unfold check_wordpress_plugins.
  unfold os_path_exists, os_listdir. rewrite Hdir. simpl.
  unfold bind at 1. simpl. unfold bind at 1. simpl.
  rewrite for_each_skip. apply check_plugins_effects.
Qed.

(** A plugin whose lookup says closed gets the CLOSED line and no other,
    whatever the two versions are. *)
Theorem closed_takes_precedence (plugins_dir : path) (plugin_slug : string)
    (plugin_name plugin_version_str : string) (s s1 : state)
    (last_version : option PackageVersion) :
  fst (plugin_header (os_path_join plugins_dir [plugin_slug]) s)
  = Ok (Some plugin_name, Some plugin_version_str) ->
  plugin_name <> "" ->
  plugin_version_str <> "" ->
  get_plugin_last_version plugin_slug s = (Ok (last_version, Some true), s1) ->
  check_plugin plugins_dir plugin_slug s = (Ok tt, emit [closed_line plugin_slug] s1).
Proof.
  intros Hheader Hname Hversion Hlookup. unfold check_plugin, bind.
  rewrite (read_only_plugin_header _ s s), Hheader. simpl.
  assert (String.eqb plugin_name "" = false) as -> by by apply String.eqb_neq.
  assert (String.eqb plugin_version_str "" = false) as -> by by apply String.eqb_neq.
  simpl. by rewrite Hlookup.
Qed.


(** The loop over the files of a plugin, one part of the listing after the
    other. *)
Lemma for_fold_app {A B} (body : B -> A -> M B) (l1 l2 : list A) (vars : B) (s : state) :
  for_fold (l1 ++ l2) body vars s =
  match for_fold l1 body vars s with
  | (Ok vars', s') => for_fold l2 body vars' s'
  | (Raise e, s') => (Raise e, s')
  end.
Proof.
  revert vars s. induction l1 as [|x l1 IH]; intros vars s; simpl; [done|].
  unfold bind. destruct (body vars x s) as [[vars'|e] s1]; [apply IH | done].
Qed.

(** A PHP file that cannot be read makes [check_plugin] raise, with no
    request and no line, also when a file read before it has a complete
    header: the loop does not stop at a match. *)
Theorem unreadable_file_aborts (plugins_dir : path) (plugin_slug : string)
    (entries : list (string * fsnode)) (before after codes : list string) (name : string)
    (e : exn) (s : state) :
  lookup_path disk (os_path_join plugins_dir [plugin_slug]) = Some (Dir entries) ->
  map fst entries = before ++ name :: after ->
  scanned_codes (os_path_join plugins_dir [plugin_slug]) before codes ->
  is_php_file (os_path_join plugins_dir [plugin_slug]) name = true ->
  fst (read_file (os_path_join (os_path_join plugins_dir [plugin_slug]) [name]) s) = Raise e ->
  check_plugin plugins_dir plugin_slug s = (Raise e, s).
Proof.
  intros Hdir Hnames Hcodes Hphp Hread.
  assert (plugin_header (os_path_join plugins_dir [plugin_slug]) s = (Raise e, s)) as Hrun.
  { unfold plugin_header, os_listdir, bind. rewrite Hdir. simpl. rewrite Hnames.
    rewrite for_fold_app, (scan_all _ _ codes) by done. simpl. unfold bind.
    assert (scan_php_file (os_path_join plugins_dir [plugin_slug])
              (fold_left scan_code codes (None, None)) name s = (Raise e, s)) as ->; [|done].
    unfold scan_php_file. unfold is_php_file in Hphp.
    rewrite <- negb_andb, Hphp. simpl. unfold bind.
    by rewrite (read_only_read_file _ s s), Hread. }
  unfold check_plugin, bind. by rewrite Hrun.
Qed.

(** ** [check_directory] and [check_wordpress] *)

Lemma check_directory_installation (wp_dir : path) (s : state) :
  is_wordpress wp_dir = true ->
  check_directory wp_dir s
  = check_installation wp_dir (emit [separator_line; wordpress_line wp_dir] s).
Proof.
  intros Hwp. unfold check_directory. rewrite Hwp.
  unfold bind at 1. simpl. unfold bind at 1. simpl. by rewrite emit_emit.
Qed.

Lemma advances_report_release_date (release_date : option datetime) :
  advances (report_release_date release_date).
Proof.
  unfold report_release_date. destruct release_date as [date|]; [|apply advances_print].
  destruct (180 <? _)%Z; [apply advances_print | apply advances_ret].
Qed.

Lemma advances_check_installation (wp_dir : path) : advances (check_installation wp_dir).
Proof.
  unfold check_installation.
  apply advances_bind; [apply advances_read_only, read_only_get_wp_version|].
  intros [version0|]; [|apply advances_print].
  destruct (negb _); [apply advances_print|].
  apply advances_bind; [apply advances_print|]. intros _.
  apply advances_bind; [intros s; apply rtc_once, step_core|]. intros release_date.
  apply advances_bind; [apply advances_report_release_date|].
  intros _. apply advances_check_wordpress_plugins.
Qed.

(** When [wp-includes/version.php] is a directory, the report on the
    installation stops after its first two lines with the exception of
    [open]. *)
Theorem version_php_directory_raises (wp_dir : path) (entries : list (string * fsnode))
    (s : state) :
  is_wordpress wp_dir = true ->
  lookup_path disk (os_path_join wp_dir ["wp-includes"; "version.php"]) = Some (Dir entries) ->
  check_directory wp_dir s
  = (Raise IsADirectoryError, emit [separator_line; wordpress_line wp_dir] s).
Proof.
  intros Hwp Hdir. rewrite check_directory_installation by done.
  unfold check_installation, bind, get_wp_version, os_path_exists, read_file.
  by rewrite Hdir.
Qed.

(** When [wp-content/plugins] is a regular file, the scan of the plugins
    prints its line and raises the exception of [os.listdir]. *)
Theorem plugins_file_raises (wp_dir : path) (rawdata : string) (s : state) :
  lookup_path disk (os_path_join wp_dir ["wp-content"; "plugins"]) = Some (File rawdata) ->
  check_wordpress_plugins wp_dir s
  = (Raise NotADirectoryError,
     emit ["Plugins: " +:+ path_str (os_path_join wp_dir ["wp-content"; "plugins"])] s).
Proof.
  intros Hfile. unfold check_wordpress_plugins, os_path_exists, os_listdir.
  rewrite Hfile. simpl. unfold bind at 1. simpl. by unfold bind.
Qed.


(** A walk that meets no installation returns without a line, a request or
    a change of the caches. *)
Theorem no_installation_is_silent (rootdir : path) (s : state) :
  Forall (fun directory => is_wordpress directory = false) (os_walk rootdir) ->
  check_wordpress rootdir s = (Ok tt, s).
Proof.
  unfold check_wordpress. induction 1 as [|directory l Hno _ IH]; simpl; [done|].
  unfold bind, check_directory at 1. by rewrite Hno.
Qed.

Lemma for_each_app {A} (body : A -> M unit) (l1 l2 : list A) (s : state) :
  for_each (l1 ++ l2) body s =
  match for_each l1 body s with
  | (Ok _, s') => for_each l2 body s'
  | (Raise e, s') => (Raise e, s')
  end.
Proof.
  revert s. induction l1 as [|x l1 IH]; intros s; simpl; [done|].
  unfold bind. destruct (body x s) as [[[]|e] s1]; [apply IH | done].
Qed.

(** An exception in the report on one directory ends the walk: the
    directories after it are not looked at. *)
Theorem exception_ends_walk (rootdir : path) (before after : list path) (directory : path)
    (e : exn) (s s1 s2 : state) :
  os_walk rootdir = before ++ directory :: after ->
  for_each before check_directory s = (Ok tt, s1) ->
  check_directory directory s1 = (Raise e, s2) ->
  check_wordpress rootdir s = (Raise e, s2).
Proof.
  intros Hwalk Hbefore Hraise. unfold check_wordpress.
  rewrite Hwalk, for_each_app, Hbefore. simpl. unfold bind. by rewrite Hraise.
Qed.

(** ** The lookup of a core release on a page it can read *)

Lemma cache_table_row (table : node) (version : string) (date : datetime) (s : state) :
  table_row table = Some (version, date) ->
  cache_table table s = (Ok tt, wp_cached version date s).
Proof.
  unfold table_row, cache_table, bind, or_raise, ret, wp_cache_store.
  destruct (find "tr" table) as [tr|]; [|done].
  destruct (find_all "td" tr) as [|td0 [|td1 tds]]; [done|done|]. simpl.
  destruct (dateparser_parse (text td1)); [|done]. by intros [= <- <-].
Qed.

Lemma cache_rows (tables : list node) (rows : list (string * datetime)) (s : state) :
  Forall2 (fun table row => table_row table = Some row) tables rows ->
  for_each tables cache_table s
  = (Ok tt, fold_left (fun s row => wp_cached (fst row) (snd row) s) rows s).
Proof.
  intros Hrows. revert s. induction Hrows as [|table [version date] tables rows Hrow _ IH];
    intros s; simpl; [done|].
  unfold bind. rewrite (cache_table_row _ _ _ _ Hrow). apply IH.
Qed.

Lemma cached_rows_frame (rows : list (string * datetime)) (s : state) :
  http_log (fold_left (fun s row => wp_cached (fst row) (snd row) s) rows s) = http_log s.
Proof. revert s. induction rows as [|row rows IH]; intros s; simpl; [done|]. by rewrite IH. Qed.

Lemma cached_rows_lookup (rows : list (string * datetime)) (s : state) (wp_version : string) :
  wp_cache (fold_left (fun s row => wp_cached (fst row) (snd row) s) rows s) !! wp_version
  = match last_date wp_version rows with
    | Some date => Some date
    | None => wp_cache s !! wp_version
    end.
Proof.
  revert s. induction rows as [|[version date] rows IH]; intros s; simpl; [done|].
  rewrite IH. destruct (last_date wp_version rows); [done|]. simpl.
  destruct (String.eqb_spec version wp_version) as [->|Hne].
  - apply lookup_insert_eq.
  - by apply lookup_insert_ne.
Qed.

(** When the mapping is empty and every table of the releases page has a
    first row with a version and a date that parses, the lookup sends one
    request and fills the mapping so that every version maps to the date of
    the last table with exactly that version; a version that is the first
    cell of no table has no date. *)
Theorem core_lookup_reads_page (wp_version : string) (rows : list (string * datetime))
    (s : state) :
  wp_cache s = ∅ ->
  Forall2 (fun table row => table_row table = Some row) (releases_tables s) rows ->
  exists s',
    get_wp_branch_last_version_release_date wp_version s
    = (Ok (last_date wp_version rows), s') /\
    http_log s' = http_log s ++ [releases_url] /\
    forall version, wp_cache s' !! version = last_date version rows.
Proof.
  intros Hempty Hrows. rewrite core_lookup_fetch by done.
  rewrite (cache_rows _ rows) by done.
  assert (forall version,
            wp_cache (fold_left (fun s row => wp_cached (fst row) (snd row) s) rows
                        (requested releases_url s)) !! version
            = last_date version rows) as Hlookup.
  { intros version. rewrite cached_rows_lookup. simpl. rewrite Hempty.
    by destruct (last_date version rows). }
  eexists. split; [by rewrite Hlookup|]. split; [by rewrite cached_rows_frame | done].
Qed.

(** ** The releases page in a whole run *)

Lemma releases_tables_fresh (s : state) :
  http_log s = [] -> releases_tables s = releases_tables initial_state.
Proof. intros Hlog. unfold releases_tables. by rewrite Hlog. Qed.

(** The report on one directory, from a state without an entry or a
    request: either it stays so, or the page was requested once and, if
    the report returned, the mapping holds an entry. *)
Lemma check_directory_fresh (directory : path) (s s' : state) (r : result unit) :
  wp_cache s = ∅ ->
  http_log s = [] ->
  releases_tables initial_state <> [] ->
  check_directory directory s = (r, s') ->
  (wp_cache s' = ∅ /\ http_log s' = []) \/
  (releases_requests (http_log s') = 1%nat /\ (r = Ok tt -> wp_cache s' <> ∅)).
Proof.
  intros Hempty Hlog Htables Hrun.
  assert (releases_requests [releases_url] = 1%nat) as Hone.
  { unfold releases_requests. simpl. by destruct (string_dec releases_url releases_url). }
  destruct (is_wordpress directory) eqn:Hwp; cycle 1.
  { left. unfold check_directory in Hrun. rewrite Hwp in Hrun. by injection Hrun as <- <-. }
  rewrite check_directory_installation in Hrun by done.
  unfold check_installation in Hrun. unfold bind at 1 in Hrun.
  rewrite (read_only_get_wp_version directory _ s) in Hrun.
  destruct (fst (get_wp_version directory s)) as [[version0|]|e]; simpl in Hrun;
    [|left; by injection Hrun as <- <-|left; by injection Hrun as <- <-].
  destruct (negb (negb (String.eqb version0 ""))); simpl in Hrun;
    [left; by injection Hrun as <- <-|].
  unfold bind at 1 in Hrun. simpl in Hrun. rewrite emit_emit in Hrun.
  unfold bind at 1 in Hrun.
  set (s0 := emit _ s) in Hrun.
  assert (wp_cache s0 = ∅) as Hempty0 by done.
  assert (http_log s0 = []) as Hlog0 by done.
  rewrite core_lookup_fetch in Hrun by done.
  destruct (for_each (releases_tables s0) cache_table (requested releases_url s0))
    as [[[]|e] s1] eqn:E.
  - right.
    destruct (cache_tables_frame _ _ _ _ E) as [(Hlog1 & _) _].
    assert (wp_cache s1 <> ∅) as Hne.
    { apply (cache_tables_populate (releases_tables s0) (requested releases_url s0)); [|done].
      by rewrite releases_tables_fresh. }
    assert (advances (bind (report_release_date (wp_cache s1 !! version0))
                       (fun _ => check_wordpress_plugins directory))) as Hrest.
    { apply advances_bind; [apply advances_report_release_date|].
      intros _. apply advances_check_wordpress_plugins. }
    pose proof (Hrest s1) as Hlater. rewrite Hrun in Hlater. simpl in Hlater.
    destruct (later_populated _ _ Hlater Hne) as [Hne' Hcount].
    split; [|done]. rewrite Hcount, Hlog1.
    replace (http_log (requested releases_url s0)) with [releases_url]; [done|].
    simpl. by rewrite Hlog.
  - right. injection Hrun as <- <-.
    destruct (cache_tables_frame _ _ _ _ E) as [(Hlog1 & _) _].
    split; [|done]. rewrite Hlog1.
    replace (http_log (requested releases_url s0)) with [releases_url]; [done|].
    simpl. by rewrite Hlog.
Qed.

Lemma walk_fresh (directories : list path) (s : state) :
  wp_cache s = ∅ ->
  http_log s = [] ->
  releases_tables initial_state <> [] ->
  (releases_requests (http_log (snd (for_each directories check_directory s))) <= 1)%nat.
Proof.
  intros Hempty Hlog Htables. revert s Hempty Hlog.
  induction directories as [|directory directories IH]; intros s Hempty Hlog; simpl.
  - rewrite Hlog. unfold releases_requests. simpl. lia.
  - unfold bind. destruct (check_directory directory s) as [r s1] eqn:E.
    destruct (check_directory_fresh directory s s1 r Hempty Hlog Htables E)
      as [[Hempty1 Hlog1] | [Hcount Hne]]; destruct r as [[]|e]; simpl.
    + by apply IH.
    + rewrite Hlog1. unfold releases_requests. simpl. lia.
    + pose proof (advances_for_each directories check_directory
                    advances_check_directory s1) as Hlater.
      destruct (later_populated _ _ Hlater (Hne eq_refl)) as [_ Hsame]. lia.
    + lia.
Qed.

(** In a run, the releases page is requested at most once when it has at
    least one table, however many installations the walk meets and whether
    the run returns or raises. *)
Theorem releases_page_requested_at_most_once (rootdir : path) :
  releases_tables initial_state <> [] ->
  (releases_requests (http_log (snd (main rootdir))) <= 1)%nat.
Proof. intros Htables. by apply walk_fresh. Qed.

(** ** Every installation below the root is reported *)

Lemma lookup_path_app (n : fsnode) (p q : path) :
  lookup_path n (p ++ q) =
  match lookup_path n p with
  | Some m => lookup_path m q
  | None => None
  end.
Proof.
  revert n. induction p as [|name p IH]; intros n; simpl; [done|].
  destruct n as [|entries]; [done|]. destruct (assoc name entries); [apply IH | done].
Qed.

(** The walk of the entries of a directory holds the walk of each entry. *)
Lemma walk_entry (top : path) (entries : list (string * fsnode)) (name : string)
    (c : fsnode) (directory : path) :
  assoc name entries = Some c ->
  In directory (walk_node (top ++ [name]) c) ->
  In directory
     ((fix walk_entries (l : list (string * fsnode)) : list path :=
         match l with
         | [] => []
         | (name, c) :: l' => walk_node (top ++ [name]) c ++ walk_entries l'
         end) entries).
Proof.
  induction entries as [|[name' c'] entries IH]; simpl; [done|].
  intros Hassoc Hin. apply in_or_app.
  destruct (String.eqb_spec name' name) as [->|Hne].
  - left. by injection Hassoc as ->.
  - right. by apply IH.
Qed.

(** [os.walk] does not prune: it yields every directory below its top. *)
Lemma walk_node_complete (n : fsnode) (top p : path) (entries : list (string * fsnode)) :
  lookup_path n p = Some (Dir entries) ->
  In (top ++ p) (walk_node top n).
Proof.
  revert n top. induction p as [|name p IH]; intros n top; simpl.
  - intros [= ->]. rewrite app_nil_r. simpl. by left.
  - destruct n as [|es]; [done|]. destruct (assoc name es) as [c|] eqn:Hassoc; [|done].
    intros Hdir. simpl. right. apply (walk_entry top es name c); [done|].
    replace (top ++ name :: p) with ((top ++ [name]) ++ p) by by rewrite <- app_assoc.
    by apply IH.
Qed.

(** A loop that returns has run its body on each element, and the body
    returned. *)
Lemma for_each_ok_elem {A} (body : A -> M unit) (l : list A) (x : A) (s s' : state) :
  (forall y, advances (body y)) ->
  for_each l body s = (Ok tt, s') ->
  In x l ->
  exists s1, later s s1 /\ fst (body x s1) = Ok tt /\ later (snd (body x s1)) s'.
Proof.
  intros Hbody. revert s. induction l as [|y l IH]; intros s; simpl; [done|].
  unfold bind. destruct (body y s) as [[[]|e] s1] eqn:E; [|done].
  intros Hrest [->|Hin].
  - exists s. rewrite E. simpl. split; [apply rtc_refl|]. split; [done|].
    pose proof (advances_for_each l body Hbody s1) as Hlater. by rewrite Hrest in Hlater.
  - destruct (IH _ Hrest Hin) as (s2 & Hlater & Hok & Hlater').
    exists s2. split; [|done]. eapply rtc_trans; [|exact Hlater].
    pose proof (Hbody y s) as H1. by rewrite E in H1.
Qed.

(** In a walk that returns, every directory below the root that holds
    [wp-content] and [wp-includes] has its "WordPress:" line in the output,
    also a directory inside another installation. *)
Theorem every_installation_is_reported (rootdir p : path)
    (entries : list (string * fsnode)) (s : state) :
  fst (check_wordpress rootdir s) = Ok tt ->
  lookup_path disk (rootdir ++ p) = Some (Dir entries) ->
  is_wordpress (rootdir ++ p) = true ->
  In (wordpress_line (rootdir ++ p)) (stdout (snd (check_wordpress rootdir s))).
Proof.
  intros Hok Hdir Hwp.
  assert (In (rootdir ++ p) (os_walk rootdir)) as Hin.
  { unfold os_walk. rewrite lookup_path_app in Hdir.
    destruct (lookup_path disk rootdir) as [n|]; [|done].
    by apply (walk_node_complete n rootdir p entries). }
  destruct (check_wordpress rootdir s) as [r s'] eqn:Hrun. simpl in *. subst r.
  destruct (for_each_ok_elem check_directory _ _ _ _ advances_check_directory Hrun Hin)
    as (s1 & _ & _ & Hlater).
  rewrite check_directory_installation in Hlater by done.
  pose proof (advances_check_installation (rootdir ++ p)
                (emit [separator_line; wordpress_line (rootdir ++ p)] s1)) as Hinst.
  destruct (later_grows _ _ Hinst) as (_ & (l1 & Hout1) & _).
  destruct (later_grows _ _ Hlater) as (_ & (l2 & Hout2) & _).
  rewrite Hout2, Hout1. simpl. rewrite !in_app_iff. left. left. right. simpl. by right; left.
Qed.

End Coverage.

(** * The other properties on concrete runs *)

Module CoverageRuns.
Import Fixture Scenario MoreFixture.

(** After a first lookup of [akismet], a walk over the installation leaves
    its page requested once. *)
Lemma cached_plugin_never_requested_witness :
  plugin_cache (snd (@check_wordpress libraries in_may ["site"] akismet_looked_up))
    !! "akismet" = Some (Release [2; 0]%nat, false) /\
  plugin_requests "akismet"
    (http_log (snd (@check_wordpress libraries in_may ["site"] akismet_looked_up)))
  = 1%nat.
Proof.
  destruct (@cached_plugin_never_requested libraries in_may ["site"] akismet_looked_up
              "akismet" (Release [2; 0]%nat, false)) as [Hcache Hlog].
  - reflexivity.
  - split; [exact Hcache|]. rewrite Hlog. reflexivity.
Defined.

Lemma plugin_scan_effects_witness :
  @scan_effects libraries ["akismet"]
    (emit ["Plugins: site/wp-content/plugins"] initial_state)
    (snd (@check_wordpress_plugins libraries in_may ["site"] initial_state)).
Proof.
  apply (@plugin_scan_effects libraries in_may ["site"]
           [("index.php", File "<?php // Silence is golden.");
            ("akismet", Dir [("akismet.php", File (header "Akismet" "1.0"));
                             ("readme.txt", File "Version: 9.9")])]
           initial_state).
  reflexivity.
Defined.

(** The plugin has version 1.0 on disk, its page shows 3.0 and says closed:
    the line is the CLOSED line. *)
Lemma closed_takes_precedence_witness :
  @check_plugin more_libraries retired_world the_plugins "retired" initial_state
  = (Ok tt,
     emit ["   retired: CLOSED"]
       (snd (@get_plugin_last_version more_libraries retired_world "retired" initial_state))).
Proof.
  apply (@closed_takes_precedence more_libraries retired_world the_plugins "retired"
           "Retired" "1.0" initial_state _ (Some (Release [3; 0]%nat))).
  - reflexivity.
  - discriminate.
  - discriminate.
  - reflexivity.
Defined.

(** [a.php] has a complete header, [b.php] is no UTF-8 text and [chardet]
    finds no encoding for it. *)
Lemma unreadable_file_aborts_witness :
  @check_plugin more_libraries binary_world the_plugins "foo" initial_state
  = (Raise TypeError, initial_state).
Proof.
  apply (@unreadable_file_aborts more_libraries binary_world the_plugins "foo"
           [("a.php", File (header "Foo" "1.0")); ("b.php", File latin1);
            ("c.php", File (header "Foo" "2.0"))]
           ["a.php"] ["c.php"] [header "Foo" "1.0"] "b.php").
  - reflexivity.
  - reflexivity.
  - repeat constructor.
  - reflexivity.
  - reflexivity.
Defined.

Lemma version_php_directory_raises_witness :
  @check_directory more_libraries version_directory_world ["site"] initial_state
  = (Raise IsADirectoryError,
     emit ["----------------------------------------"; "WordPress: site"] initial_state).
Proof.
  apply (@version_php_directory_raises more_libraries version_directory_world ["site"] []).
  - reflexivity.
  - reflexivity.
Defined.

Lemma plugins_file_raises_witness :
  @check_wordpress_plugins more_libraries plugins_file_world ["site"] initial_state
  = (Raise NotADirectoryError, emit ["Plugins: site/wp-content/plugins"] initial_state).
Proof.
  apply (@plugins_file_raises more_libraries plugins_file_world ["site"] "").
  reflexivity.
Defined.

(** The walk starts inside [wp-content], where no directory is an
    installation. *)
Lemma no_installation_is_silent_witness :
  @check_wordpress libraries in_may ["site"; "wp-content"] initial_state
  = (Ok tt, initial_state).
Proof.
  apply (@no_installation_is_silent libraries in_may ["site"; "wp-content"]).
  repeat constructor.
Defined.

(** The first directory of the walk raises: the three below it are not
    looked at. *)
Lemma exception_ends_walk_witness :
  @check_wordpress more_libraries version_directory_world ["site"] initial_state
  = (Raise IsADirectoryError,
     emit ["----------------------------------------"; "WordPress: site"] initial_state).
Proof.
  apply (@exception_ends_walk more_libraries version_directory_world ["site"] []
           [["site"; "wp-content"]; ["site"; "wp-includes"];
            ["site"; "wp-includes"; "version.php"]]
           ["site"] IsADirectoryError initial_state initial_state).
  - reflexivity.
  - reflexivity.
  - reflexivity.
Defined.

(** The page lists 6.2 twice and 6.1.1 once: 6.2 has the date of its last
    table, 6.1 has none. *)
Lemma core_lookup_reads_page_witness :
  fst (@get_wp_branch_last_version_release_date more_libraries branches_world "6.2"
         initial_state) = Ok (Some (day 19446)) /\
  fst (@get_wp_branch_last_version_release_date more_libraries branches_world "6.1"
         initial_state) = Ok None.
Proof.
  assert (Forall2 (fun table row => @table_row more_libraries table = Some row)
            (@releases_tables more_libraries branches_world initial_state)
            [("6.2", day 19445); ("6.1.1", day 19311); ("6.2", day 19446)]) as Hrows.
  { repeat constructor. }
  split.
  - destruct (@core_lookup_reads_page more_libraries branches_world "6.2" _ initial_state
                eq_refl Hrows) as (s' & Hrun & _).
    rewrite Hrun. reflexivity.
  - destruct (@core_lookup_reads_page more_libraries branches_world "6.1" _ initial_state
                eq_refl Hrows) as (s' & Hrun & _).
    rewrite Hrun. reflexivity.
Defined.

(** Two installations, one inside the other: one request for the releases
    page. *)
Lemma releases_page_requested_at_most_once_witness :
  (releases_requests (http_log (snd (@main more_libraries nested_world ["site"]))) <= 1)%nat.
Proof.
  apply (@releases_page_requested_at_most_once more_libraries nested_world ["site"]).
  discriminate.
Defined.

(** The installation in the uploads of another one is reported. *)
Lemma every_installation_is_reported_witness :
  In "WordPress: site/wp-content/uploads/old"
     (stdout (snd (@check_wordpress more_libraries nested_world ["site"] initial_state))).
Proof.
  apply (@every_installation_is_reported more_libraries nested_world ["site"]
           ["wp-content"; "uploads"; "old"]
           [("wp-content", Dir [("plugins", plugins)]);
            ("wp-includes", Dir [("version.php", File (version_php "6.2"))])]
           initial_state).
  - vm_compute. reflexivity.
  - reflexivity.
  - reflexivity.
Defined.

End CoverageRuns.
